(** * Verification of [reduce_results] (src/docker/reduce_results.py)

    The reducer reads one combined scan-result document, folds its entries
    into a summary dictionary and writes a JSON file and a text report.

    The embedding follows the Python source statement by statement.  Python
    values obtained from [json.load] are values of [json]; exceptions are
    values of [pyexc]; logging and file output are recorded, in order, as a
    trace of [event]s.  What the program obtains from the interpreter's
    libraries and from the operating system ([json.loads], [str()],
    [json.dump], [datetime.now], [pathlib], [mkdir], [open], [write]) is
    collected in the record [Runtime]; the readable part of the file system
    is a function from paths to file contents. *)

From Stdlib Require Import List String Ascii ZArith Bool Lia PeanoNat.
From Stdlib Require Import SpecFloat DecimalString.
Import ListNotations.
Local Open Scope string_scope.
Set Warnings "-register-all".

(** ** Python values *)

(** The values [json.load] produces: [None], [bool], [int], [float], [str],
    [list] and [dict].  A [str] is a [string], one [ascii] for each
    character.  A [dict] keeps insertion order and is an association list
    whose keys are strings (pairwise distinct in every value a decoder
    returns; no result below depends on it). *)
Inductive json : Type :=
| JNull
| JBool (b : bool)
| JInt (z : Z)
| JFloat (f : spec_float)
| JStr (s : string)
| JList (l : list json)
| JDict (d : list (string * json)).

Definition pydict : Type := list (string * json).

(** Exceptions.  [TypeError], [AttributeError] and [KeyError] are raised by
    the interpreter on ill-typed operations (their messages are not
    modelled); [EnvError text] is what a library or system call raised
    ([OSError], [JSONDecodeError], ...), with [text] the value of [str(e)]. *)
Inductive pyexc : Type :=
| TypeError
| AttributeError
| KeyError
| EnvError (text : string).

Definition result (A : Type) : Type := (pyexc + A)%type.

Definition nl : string := String (ascii_of_nat 10) EmptyString.

(** ** Operations of the interpreter on these values *)

Fixpoint dict_find (d : pydict) (k : string) : option json :=
  match d with
  | [] => None
  | (k', v) :: r => if String.eqb k' k then Some v else dict_find r k
  end.

(** [d.get(k, dflt)] on a dict. *)
Definition dict_get (d : pydict) (k : string) (dflt : json) : json :=
  match dict_find d k with
  | Some v => v
  | None => dflt
  end.

(** [d[k]] on a dict. *)
Definition dict_getitem (d : pydict) (k : string) : result json :=
  match dict_find d k with
  | Some v => inr v
  | None => inl KeyError
  end.

(** [x.get(k, dflt)] on any value: only a dict has the method. *)
Definition py_get (x : json) (k : string) (dflt : json) : result json :=
  match x with
  | JDict d => inr (dict_get d k dflt)
  | _ => inl AttributeError
  end.

(** [x.items()]. *)
Definition py_items (x : json) : result (list (string * json)) :=
  match x with
  | JDict d => inr d
  | _ => inl AttributeError
  end.

Definition chars (s : string) : list string :=
  map (fun c => String c EmptyString) (list_ascii_of_string s).

(** [len(x)]. *)
Definition py_len (x : json) : result nat :=
  match x with
  | JList l => inr (List.length l)
  | JStr s => inr (String.length s)
  | JDict d => inr (List.length d)
  | _ => inl TypeError
  end.

(** The values a [for] loop over [x] visits. *)
Definition py_iter (x : json) : result (list json) :=
  match x with
  | JList l => inr l
  | JStr s => inr (map JStr (chars s))
  | JDict d => inr (map (fun kv => JStr (fst kv)) d)
  | _ => inl TypeError
  end.

(** Truth value of [x] in a condition. *)
Definition py_truthy (x : json) : bool :=
  match x with
  | JNull => false
  | JBool b => b
  | JInt z => negb (Z.eqb z 0)
  | JFloat (S754_zero _) => false
  | JFloat _ => true
  | JStr s => negb (String.eqb s EmptyString)
  | JList l => negb (Nat.eqb (List.length l) 0)
  | JDict d => negb (Nat.eqb (List.length d) 0)
  end.

(** [x == s] for a string literal [s]. *)
Definition py_eq_str (x : json) (s : string) : bool :=
  match x with
  | JStr t => String.eqb t s
  | _ => false
  end.

Fixpoint join_strs (sep : string) (l : list json) : result string :=
  match l with
  | [] => inr EmptyString
  | JStr s :: [] => inr s
  | JStr s :: r =>
      match join_strs sep r with
      | inr t => inr (s ++ sep ++ t)
      | inl e => inl e
      end
  | _ :: _ => inl TypeError
  end.

(** [sep.join(x)]: [x] must be iterable and yield strings only. *)
Definition py_join (sep : string) (x : json) : result string :=
  match py_iter x with
  | inr l => join_strs sep l
  | inl e => inl e
  end.

(** *** Dictionary keys

    [findings_by_rule] is keyed by whatever value [rulename] holds.  A list
    or a dict is unhashable.  Numbers are compared by value across [bool],
    [int] and [float] ([True == 1 == 1.0]); [hkey] is the canonical form under
    which two hashable values are the same key.  A non-zero dyadic number is
    kept as sign, odd mantissa and binary exponent. *)
Inductive hkey : Type :=
| HNone
| HZero
| HNum (neg : bool) (m : positive) (e : Z)
| HInf (neg : bool)
| HNaN
| HStr (s : string).

Fixpoint strip2 (p : positive) : positive * Z :=
  match p with
  | xO q => let '(m, k) := strip2 q in (m, Z.succ k)
  | _ => (p, 0%Z)
  end.

Definition hkey_of_Z (z : Z) : hkey :=
  match z with
  | Z0 => HZero
  | Zpos p => let '(m, k) := strip2 p in HNum false m k
  | Zneg p => let '(m, k) := strip2 p in HNum true m k
  end.

Definition hkey_of_float (f : spec_float) : hkey :=
  match f with
  | S754_zero _ => HZero
  | S754_infinity s => HInf s
  | S754_nan => HNaN
  | S754_finite s m e => let '(m', k) := strip2 m in HNum s m' (e + k)
  end.

Definition py_hash_key (v : json) : option hkey :=
  match v with
  | JNull => Some HNone
  | JBool b => Some (hkey_of_Z (if b then 1 else 0))
  | JInt z => Some (hkey_of_Z z)
  | JFloat f => Some (hkey_of_float f)
  | JStr s => Some (HStr s)
  | JList _ | JDict _ => None
  end.

Definition hkey_eq_dec (a b : hkey) : {a = b} + {a <> b}.
Proof.
  decide equality;
    first [apply Bool.bool_dec | apply Pos.eq_dec | apply Z.eq_dec | apply string_dec].
Defined.

Definition has_key (h : hkey) (k : json) : bool :=
  match py_hash_key k with
  | Some h' => if hkey_eq_dec h' h then true else false
  | None => false
  end.

(** A dict from rule names to counts, in insertion order. *)
Definition kdict : Type := list (json * nat).

(** Assignment to an existing key keeps the stored key object and its place;
    a new key goes last. *)
Fixpoint kdict_set (d : kdict) (h : hkey) (k : json) (v : nat) : kdict :=
  match d with
  | [] => [(k, v)]
  | (k', v') :: r =>
      if has_key h k' then (k', v) :: r else (k', v') :: kdict_set r h k v
  end.

(** [d[k] = v]. *)
Definition dict_setitem (d : kdict) (k : json) (v : nat) : result kdict :=
  match py_hash_key k with
  | Some h => inr (kdict_set d h k v)
  | None => inl TypeError
  end.

Fixpoint kdict_find (d : kdict) (h : hkey) : option nat :=
  match d with
  | [] => None
  | (k', v') :: r => if has_key h k' then Some v' else kdict_find r h
  end.

(** [d.get(k)] on such a dict: [None] when [k] is no key of it. *)
Definition kdict_lookup (d : kdict) (k : json) : option nat :=
  match py_hash_key k with
  | Some h => kdict_find d h
  | None => None
  end.

(** *** Strings and paths *)

Definition is_char (c d : ascii) : bool := Ascii.eqb c d.

Fixpoint contains_char (c : ascii) (s : string) : bool :=
  match s with
  | EmptyString => false
  | String d r => is_char d c || contains_char c r
  end.

(** [s.split(c)] for a one-character separator [c]. *)
Fixpoint py_split (c : ascii) (s : string) : list string :=
  match s with
  | EmptyString => [EmptyString]
  | String d r =>
      if is_char d c then EmptyString :: py_split c r
      else match py_split c r with
           | h :: t => String d h :: t
           | [] => [String d EmptyString]
           end
  end.

(** [os.path.basename(p)] on POSIX: what follows the last slash. *)
Fixpoint basename (p : string) : string :=
  match p with
  | EmptyString => EmptyString
  | String c r =>
      if contains_char "/"%char r then basename r
      else if is_char c "/"%char then r else p
  end.

(** ** Effects

    A computation yields the events it caused, in order, and either the
    exception it raised or its value. *)

Inductive level : Type := INFO | WARNING | ERROR.

Inductive event : Type :=
| Log (lv : level) (msg : string)
| Mkdir (path : string)
| OpenW (path : string)
| FWrite (path : string) (chunk : string).

Definition M (A : Type) : Type := (list event * result A)%type.

Definition ret {A : Type} (a : A) : M A := ([], inr a).

Definition raise {A : Type} (e : pyexc) : M A := ([], inl e).

Definition bind {A B : Type} (m : M A) (k : A -> M B) : M B :=
  match m with
  | (t, inl e) => (t, inl e)
  | (t, inr a) => let '(t', r) := k a in ((t ++ t')%list, r)
  end.

Definition lift {A : Type} (r : result A) : M A := ([], r).

Definition emit (ev : event) : M unit := ([ev], inr tt).

Definition log (lv : level) (msg : string) : M unit := emit (Log lv msg).

Notation "x <- m ;; k" := (bind m (fun x => k))
  (at level 61, m at next level, right associativity).
Notation "m ;;; k" := (bind m (fun _ => k))
  (at level 61, right associativity).

(** A [for] loop whose body updates the loop state [s]. *)
Fixpoint for_each {A S : Type} (body : S -> A -> M S) (s : S) (l : list A) : M S :=
  match l with
  | [] => ret s
  | x :: r => s' <- body s x ;; for_each body s' r
  end.

(** ** The summary *)

(** The dict built at lines 33-37; [vulnerability_summary] is the key that
    line 78 adds. *)
Record summary : Type := mk_summary {
  total_findings : nat;
  findings_by_rule : kdict;
  all_matches : list pydict;
  vulnerability_summary : option pydict
}.

Definition empty_summary : summary := mk_summary 0 [] [] None.

Definition set_counts (s : summary) (fbr : kdict) (n : nat) : summary :=
  mk_summary (total_findings s + n) fbr (all_matches s) (vulnerability_summary s).

Definition append_match (s : summary) (m : pydict) : summary :=
  mk_summary (total_findings s) (findings_by_rule s) (all_matches s ++ [m])%list
    (vulnerability_summary s).

Definition set_vulnerability_summary (s : summary) (v : pydict) : summary :=
  mk_summary (total_findings s) (findings_by_rule s) (all_matches s) (Some v).

(** ** The environment *)

(** What the run takes from libraries and the system.  An error is given by
    the text of the exception. *)
Record Runtime : Type := {
  json_loads : string -> string + json;       (* json.loads, and json.load on a file's text *)
  py_str : json -> string;                    (* str(v), as an f-string formats v *)
  json_dumps : summary -> string;             (* the text json.dump(summary, f, indent=2) writes *)
  now_stamp : string;                         (* datetime.now().strftime of line 23 *)
  path_str : string -> string;                (* str(Path(p)) *)
  path_join : string -> string -> string;     (* str(Path(p) / name) *)
  os_mkdir : string -> option string;         (* Path(p).mkdir(parents=True, exist_ok=True) *)
  os_open_w : string -> option string;        (* open(p, 'w') *)
  os_write : string -> string -> option string  (* f.write(chunk), f opened at p *)
}.

(** The readable files: the text of the file at a path, or the error of
    [open] or of reading it. *)
Definition files : Type := string -> string + string.

(** ** The loop body (lines 47-97) *)

Definition getM (x : json) (k : string) (dflt : json) : M json :=
  lift (py_get x k dflt).

(** Lines 62-74: the record of one vulnerability. *)
Definition vulnerability_match (rule_name : json) (package_name : string)
    (vuln_data : json) : M pydict :=
  severity <- getM vuln_data "severity" (JStr EmptyString) ;;
  is_direct <- getM vuln_data "isDirect" (JBool false) ;;
  via <- getM vuln_data "via" (JList []) ;;
  effects <- getM vuln_data "effects" (JList []) ;;
  version_range <- getM vuln_data "range" (JStr EmptyString) ;;
  nodes <- getM vuln_data "nodes" (JList []) ;;
  fix_available <- getM vuln_data "fixAvailable" (JBool false) ;;
  ret [ ("rule", rule_name);
        ("package", JStr package_name);
        ("severity", severity);
        ("is_direct", is_direct);
        ("via", via);
        ("effects", effects);
        ("version_range", version_range);
        ("nodes", nodes);
        ("fix_available", fix_available);
        ("type", JStr "vulnerability") ].

(** Lines 89-96: the record of one match. *)
Definition finding_match (rule_name : json) (mt : json) : M pydict :=
  path <- getM mt "path" (JStr EmptyString) ;;
  start <- getM mt "start" (JDict []) ;;
  line <- getM start "line" (JInt 0) ;;
  extra <- getM mt "extra" (JDict []) ;;
  snippet <- getM extra "lines" (JStr EmptyString) ;;
  extra' <- getM mt "extra" (JDict []) ;;
  message <- getM extra' "message" (JStr EmptyString) ;;
  ret [ ("rule", rule_name);
        ("path", path);
        ("line", line);
        ("snippet", snippet);
        ("message", message);
        ("type", JStr "finding") ].

(** Lines 77-85. *)
Definition severity_counts (result : pydict) : M pydict :=
  metadata <- getM (dict_get result "metadata" (JDict [])) "vulnerabilities" (JDict []) ;;
  info <- getM metadata "info" (JInt 0) ;;
  low <- getM metadata "low" (JInt 0) ;;
  moderate <- getM metadata "moderate" (JInt 0) ;;
  high <- getM metadata "high" (JInt 0) ;;
  critical <- getM metadata "critical" (JInt 0) ;;
  total <- getM metadata "total" (JInt 0) ;;
  ret [ ("info", info);
        ("low", low);
        ("moderate", moderate);
        ("high", high);
        ("critical", critical);
        ("total", total) ].

Definition process_result (R : Runtime) (s : summary) (result : json) : M summary :=
  match result with
  | JDict r =>
      let rule_name := dict_get r "rulename" (JStr "unknown") in
      let matches := dict_get r "matches" (JList []) in
      n <- lift (py_len matches) ;;
      fbr <- lift (dict_setitem (findings_by_rule s) rule_name n) ;;
      let s := set_counts s fbr n in
      if py_eq_str rule_name "package_scan" then
        vulnerabilities <- lift (py_items (dict_get r "vulnerabilities" (JDict []))) ;;
        s <- for_each
               (fun s (item : string * json) =>
                  simplified_match <- vulnerability_match rule_name (fst item) (snd item) ;;
                  ret (append_match s simplified_match))
               s vulnerabilities ;;
        counts <- severity_counts r ;;
        ret (set_vulnerability_summary s counts)
      else
        ms <- lift (py_iter matches) ;;
        for_each
          (fun s mt =>
             simplified_match <- finding_match rule_name mt ;;
             ret (append_match s simplified_match))
          s ms
  | _ =>
      log WARNING ("Skipping invalid result format: " ++ py_str R result) ;;;
      ret s
  end.

(** ** Output (lines 99-141) *)

(** [open(path, 'w')]: the file is created or truncated, or [open] raises. *)
Definition open_w (R : Runtime) (path : string) : M unit :=
  match os_open_w R path with
  | None => emit (OpenW path)
  | Some text => raise (EnvError text)
  end.

(** [f.write(chunk)] on the file opened at [path]. *)
Definition write (R : Runtime) (path chunk : string) : M unit :=
  match os_write R path chunk with
  | None => emit (FWrite path chunk)
  | Some text => raise (EnvError text)
  end.

(** A count inside an f-string. *)
Definition str_of_nat (R : Runtime) (n : nat) : string := py_str R (JInt (Z.of_nat n)).

(** Lines 122-138: the paragraph of one element of [all_matches]. *)
Definition report_match (R : Runtime) (f : string) (_ : unit) (m : pydict) : M unit :=
  rule <- lift (dict_getitem m "rule") ;;
  write R f (nl ++ "Rule: " ++ py_str R rule ++ nl) ;;;
  ty <- lift (dict_getitem m "type") ;;
  if py_eq_str ty "vulnerability" then
    package <- lift (dict_getitem m "package") ;;
    write R f ("Package: " ++ py_str R package ++ nl) ;;;
    severity <- lift (dict_getitem m "severity") ;;
    write R f ("Severity: " ++ py_str R severity ++ nl) ;;;
    is_direct <- lift (dict_getitem m "is_direct") ;;
    write R f ("Direct Dependency: " ++ py_str R is_direct ++ nl) ;;;
    via <- lift (dict_getitem m "via") ;;
    (if py_truthy via then
       via <- lift (dict_getitem m "via") ;;
       joined <- lift (py_join ", " via) ;;
       write R f ("Via: " ++ joined ++ nl)
     else ret tt) ;;;
    effects <- lift (dict_getitem m "effects") ;;
    (if py_truthy effects then
       effects <- lift (dict_getitem m "effects") ;;
       joined <- lift (py_join ", " effects) ;;
       write R f ("Effects: " ++ joined ++ nl)
     else ret tt) ;;;
    version_range <- lift (dict_getitem m "version_range") ;;
    write R f ("Affected Versions: " ++ py_str R version_range ++ nl) ;;;
    nodes <- lift (dict_getitem m "nodes") ;;
    joined <- lift (py_join ", " nodes) ;;
    write R f ("Locations: " ++ joined ++ nl) ;;;
    fix_available <- lift (dict_getitem m "fix_available") ;;
    write R f ("Fix Available: " ++ py_str R fix_available ++ nl)
  else
    path <- lift (dict_getitem m "path") ;;
    line <- lift (dict_getitem m "line") ;;
    write R f ("File: " ++ py_str R path ++ " (line " ++ py_str R line ++ ")" ++ nl) ;;;
    message <- lift (dict_getitem m "message") ;;
    write R f ("Finding: " ++ py_str R message ++ nl) ;;;
    snippet <- lift (dict_getitem m "snippet") ;;
    if py_truthy snippet then
      snippet <- lift (dict_getitem m "snippet") ;;
      write R f ("Code: " ++ py_str R snippet ++ nl)
    else ret tt.

(** Lines 113-138: the body of the second [with] block. *)
Definition write_report (R : Runtime) (f : string) (s : summary) : M unit :=
  write R f ("Security Scan Summary" ++ nl ++ "====================" ++ nl ++ nl) ;;;
  write R f ("Total Findings: " ++ str_of_nat R (total_findings s) ++ nl ++ nl) ;;;
  write R f ("Findings by Rule:" ++ nl) ;;;
  for_each
    (fun (_ : unit) (item : json * nat) =>
       write R f ("- " ++ py_str R (fst item) ++ ": " ++ str_of_nat R (snd item)
                ++ " finding(s)" ++ nl))
    tt (findings_by_rule s) ;;;
  write R f (nl ++ "Detailed Findings:" ++ nl) ;;;
  for_each (report_match R f) tt (all_matches s).

(** Lines 99-141.  [json.dump] cannot fail on a summary, whose values all
    come from the decoded document; what it writes is one chunk. *)
Definition save_outputs (R : Runtime) (server_name timestamp output_dir : string)
    (s : summary) : M summary :=
  match os_mkdir R output_dir with
  | None => emit (Mkdir output_dir)
  | Some text => raise (EnvError text)
  end ;;;
  let json_filename := server_name ++ "_" ++ timestamp ++ "_reduced.json" in
  let json_path := path_join R output_dir json_filename in
  open_w R json_path ;;;
  write R json_path (json_dumps R s) ;;;
  let txt_filename := server_name ++ "_" ++ timestamp ++ "_summary.txt" in
  let txt_path := path_join R output_dir txt_filename in
  open_w R txt_path ;;;
  write_report R txt_path s ;;;
  log INFO ("Reduced results saved to " ++ path_str R output_dir) ;;;
  ret s.

(** ** [reduce_results] *)

(** Line 22: [combined_filename.split('_')[0]]. *)
Definition server_name_of (combined_file_path : string) : string :=
  let combined_filename := basename combined_file_path in
  hd EmptyString (py_split "_"%char combined_filename).

(** Lines 26-27: [open] and [json.load]. *)
Definition json_load (R : Runtime) (fs : files) (path : string) : string + json :=
  match fs path with
  | inl text => inl text
  | inr content => json_loads R content
  end.

(** Lines 40-41. *)
Definition decode_again (R : Runtime) (combined_data : json) : M json :=
  match combined_data with
  | JStr s =>
      match json_loads R s with
      | inl text => raise (EnvError text)
      | inr v => ret v
      end
  | _ => ret combined_data
  end.

(** Lines 43-44. *)
Definition as_list (combined_data : json) : list json :=
  match combined_data with
  | JList l => l
  | _ => [combined_data]
  end.

Definition reduce_results (R : Runtime) (fs : files)
    (combined_file_path output_dir : string) : M summary :=
  log INFO ("Reading combined results from " ++ combined_file_path) ;;;
  let server_name := server_name_of combined_file_path in
  let timestamp := now_stamp R in
  match json_load R fs combined_file_path with
  | inl text =>
      log ERROR ("Error reading combined results: " ++ text) ;;;
      raise (EnvError text)
  | inr combined_data =>
      let summary := empty_summary in
      combined_data <- decode_again R combined_data ;;
      let combined_data := as_list combined_data in
      summary <- for_each (process_result R) summary combined_data ;;
      save_outputs R server_name timestamp output_dir summary
  end.

(** Lines 143-144: the entry point, with the default output directory of
    line 14. *)
Definition main (R : Runtime) (fs : files) : M summary :=
  reduce_results R fs "./results/combined/combined_results.json" "./results/reduced".

(** * Vocabulary of the statements *)

(** ** Records and entries *)

(** The records of lines 62-73 and 89-96 as values. *)
Definition vulnerability_record (rule_name : json) (package_name : string)
    (d : pydict) : pydict :=
  [ ("rule", rule_name);
    ("package", JStr package_name);
    ("severity", dict_get d "severity" (JStr EmptyString));
    ("is_direct", dict_get d "isDirect" (JBool false));
    ("via", dict_get d "via" (JList []));
    ("effects", dict_get d "effects" (JList []));
    ("version_range", dict_get d "range" (JStr EmptyString));
    ("nodes", dict_get d "nodes" (JList []));
    ("fix_available", dict_get d "fixAvailable" (JBool false));
    ("type", JStr "vulnerability") ].

(** [ds] and [de] are the [start] and [extra] objects of the match [d]. *)
Definition finding_record (rule_name : json) (d ds de : pydict) : pydict :=
  [ ("rule", rule_name);
    ("path", dict_get d "path" (JStr EmptyString));
    ("line", dict_get ds "line" (JInt 0));
    ("snippet", dict_get de "lines" (JStr EmptyString));
    ("message", dict_get de "message" (JStr EmptyString));
    ("type", JStr "finding") ].

(** The dict of lines 78-85, [md] being [metadata.vulnerabilities]. *)
Definition counts_record (md : pydict) : pydict :=
  [ ("info", dict_get md "info" (JInt 0));
    ("low", dict_get md "low" (JInt 0));
    ("moderate", dict_get md "moderate" (JInt 0));
    ("high", dict_get md "high" (JInt 0));
    ("critical", dict_get md "critical" (JInt 0));
    ("total", dict_get md "total" (JInt 0)) ].

(** [s] with the records [ms] appended to [all_matches]. *)
Definition append_matches (s : summary) (ms : list pydict) : summary :=
  mk_summary (total_findings s) (findings_by_rule s) (all_matches s ++ ms)%list
    (vulnerability_summary s).

(** Lines 51-52 and 60. *)
Definition rulename_of (r : pydict) : json := dict_get r "rulename" (JStr "unknown").
Definition matches_of (r : pydict) : json := dict_get r "matches" (JList []).
Definition vulnerabilities_of (r : pydict) : json := dict_get r "vulnerabilities" (JDict []).
Definition is_package_scan (r : pydict) : bool := py_eq_str (rulename_of r) "package_scan".

(** [m] is the record that lines 62-73 build for the item [item] of the
    [vulnerabilities] mapping. *)
Definition vulnerability_of (rn : json) (item : string * json) (m : pydict) : Prop :=
  exists d, snd item = JDict d /\ m = vulnerability_record rn (fst item) d.

(** [m] is the record that lines 89-96 build for the match [mt]. *)
Definition finding_of (rn : json) (mt : json) (m : pydict) : Prop :=
  exists d ds de,
    mt = JDict d /\ dict_get d "start" (JDict []) = JDict ds /\
    dict_get d "extra" (JDict []) = JDict de /\ m = finding_record rn d ds de.

(** The summary after a dict entry [r] has been processed without an
    exception, from the summary [s] before it. *)
Inductive entry_effect (s : summary) (r : pydict) : summary -> Prop :=
| effect_package (n : nat) (fbr : kdict) (vulns : pydict) (recs : list pydict) (md : pydict) :
    is_package_scan r = true ->
    py_len (matches_of r) = inr n ->
    dict_setitem (findings_by_rule s) (rulename_of r) n = inr fbr ->
    vulnerabilities_of r = JDict vulns ->
    Forall2 (vulnerability_of (rulename_of r)) vulns recs ->
    py_get (dict_get r "metadata" (JDict [])) "vulnerabilities" (JDict []) = inr (JDict md) ->
    entry_effect s r
      (mk_summary (total_findings s + n) fbr (all_matches s ++ recs)%list
         (Some (counts_record md)))
| effect_regular (n : nat) (fbr : kdict) (ms : list json) (recs : list pydict) :
    is_package_scan r = false ->
    py_len (matches_of r) = inr n ->
    dict_setitem (findings_by_rule s) (rulename_of r) n = inr fbr ->
    py_iter (matches_of r) = inr ms ->
    Forall2 (finding_of (rulename_of r)) ms recs ->
    entry_effect s r
      (mk_summary (total_findings s + n) fbr (all_matches s ++ recs)%list
         (vulnerability_summary s)).

(** ** The top-level entries *)

Definition is_dict (x : json) : bool :=
  match x with
  | JDict _ => true
  | _ => false
  end.

(** The entries that pass the test of line 47. *)
Fixpoint dicts (es : list json) : list pydict :=
  match es with
  | [] => []
  | JDict r :: l => r :: dicts l
  | _ :: l => dicts l
  end.

(** The entries that line 47 rejects. *)
Definition non_dicts (es : list json) : list json :=
  filter (fun x => negb (is_dict x)) es.

(** Line 48. *)
Definition skip_warning (R : Runtime) (x : json) : event :=
  Log WARNING ("Skipping invalid result format: " ++ py_str R x).

(** The summary after the dict entries [l], in order, from the summary
    before them. *)
Inductive entries_effect : summary -> list pydict -> summary -> Prop :=
| entries_done (s : summary) : entries_effect s [] s
| entries_next (s s1 s' : summary) (r : pydict) (l : list pydict) :
    entry_effect s r s1 -> entries_effect s1 l s' -> entries_effect s (r :: l) s'.

(** The list the loop runs over: the decoded file, decoded once more when
    it is a string, and wrapped when it is not a list. *)
Definition combined_entries (R : Runtime) (fs : files) (path : string)
    : string + list json :=
  match json_load R fs path with
  | inl text => inl text
  | inr (JStr s) =>
      match json_loads R s with
      | inl text => inl text
      | inr v => inr (as_list v)
      end
  | inr v => inr (as_list v)
  end.

(** ** Counts, keys and tags *)

(** [len(v)], and zero where [len] is undefined. *)
Definition len0 (v : json) : nat :=
  match py_len v with
  | inr n => n
  | inl _ => 0
  end.

Definition has_len (v : json) : Prop := exists n, py_len v = inr n.

(** What an entry adds to [all_matches]: its vulnerabilities when it is a
    package scan, its matches otherwise. *)
Definition records_added (r : pydict) : nat :=
  if is_package_scan r then len0 (vulnerabilities_of r) else len0 (matches_of r).

(** [a] and [b] are the same dictionary key. *)
Definition same_key (a b : json) : bool :=
  match py_hash_key a with
  | Some h => has_key h b
  | None => false
  end.

(** The last element of [l] that satisfies [p]. *)
Definition last_with {A : Type} (p : A -> bool) (l : list A) : option A :=
  find p (rev l).

(** [metadata.vulnerabilities] of the entry [r], when it is an object. *)
Definition severity_metadata (r : pydict) : option pydict :=
  match py_get (dict_get r "metadata" (JDict [])) "vulnerabilities" (JDict []) with
  | inr (JDict md) => Some md
  | _ => None
  end.

(** The record [m] has the value [v] under the key [k]. *)
Definition field_is (m : pydict) (k : string) (v : json) : Prop :=
  dict_find m k = Some v.

(** [g] is what the entry [r] appends to [all_matches]: every record names
    the rule of [r] and is tagged as a finding or as a vulnerability; the
    records follow the matches of [r] one for one when [r] is not a package
    scan, and its vulnerabilities when it is. *)
Definition group_of (r : pydict) (g : list pydict) : Prop :=
  (forall m, In m g ->
     field_is m "rule" (rulename_of r) /\
     (field_is m "type" (JStr "finding") \/ field_is m "type" (JStr "vulnerability"))) /\
  (is_package_scan r = false ->
     exists ms, py_iter (matches_of r) = inr ms /\
                Forall2 (finding_of (rulename_of r)) ms g) /\
  (is_package_scan r = true ->
     exists vulns, vulnerabilities_of r = JDict vulns /\
                   Forall2 (vulnerability_of (rulename_of r)) vulns g).

(** Events that touch the output directory. *)
Definition is_output (ev : event) : bool :=
  match ev with
  | Log _ _ => false
  | _ => true
  end.

Definition is_str (v : json) : bool :=
  match v with
  | JStr _ => true
  | _ => false
  end.

(** ** Entries of the expected types *)

(** [', '.join(v)] is defined. *)
Definition joinable (v : json) : bool :=
  match py_join ", " v with
  | inr _ => true
  | inl _ => false
  end.

(** A match as section 3 of the specification describes a finding record: an
    object whose [start] and [extra], when present, are objects. *)
Definition well_typed_match (mt : json) : bool :=
  match mt with
  | JDict d =>
      is_dict (dict_get d "start" (JDict [])) && is_dict (dict_get d "extra" (JDict []))
  | _ => false
  end.

(** A vulnerability record: an object whose [via], [effects] and [nodes] are
    sequences of strings (an empty or absent [via] or [effects] is not
    joined). *)
Definition well_typed_vulnerability (v : json) : bool :=
  match v with
  | JDict d =>
      (negb (py_truthy (dict_get d "via" (JList []))) || joinable (dict_get d "via" (JList [])))
      && (negb (py_truthy (dict_get d "effects" (JList [])))
          || joinable (dict_get d "effects" (JList [])))
      && joinable (dict_get d "nodes" (JList []))
  | _ => false
  end.

(** Every write succeeds. *)
Definition writable (R : Runtime) : Prop :=
  forall f chunk, os_write R f chunk = None.

(** The paragraph of [m] can be written. *)
Definition reportable (m : pydict) : Prop :=
  forall (R : Runtime) (f : string),
    writable R -> exists t, report_match R f tt m = (t, inr tt).

(** ** The package scan of scenario B *)

Definition lodash_scan : json :=
  JDict
    [ ("rulename", JStr "package_scan");
      ("vulnerabilities",
       JDict [ ("lodash",
                JDict [ ("severity", JStr "high");
                        ("isDirect", JBool true);
                        ("fixAvailable", JBool true) ]) ]);
      ("metadata",
       JDict [ ("vulnerabilities", JDict [ ("high", JInt 1); ("total", JInt 1) ]) ]) ].

Definition lodash_summary : summary :=
  {| total_findings := 0;
     findings_by_rule := [ (JStr "package_scan", 0) ];
     all_matches :=
       [ [ ("rule", JStr "package_scan");
           ("package", JStr "lodash");
           ("severity", JStr "high");
           ("is_direct", JBool true);
           ("via", JList []);
           ("effects", JList []);
           ("version_range", JStr EmptyString);
           ("nodes", JList []);
           ("fix_available", JBool true);
           ("type", JStr "vulnerability") ] ];
     vulnerability_summary :=
       Some [ ("info", JInt 0);
              ("low", JInt 0);
              ("moderate", JInt 0);
              ("high", JInt 1);
              ("critical", JInt 0);
              ("total", JInt 1) ] |}.

(** ** A sample runtime *)

(** A small runtime on which the model runs on concrete documents.  Decoding
    is given by a table of the JSON texts used below, each with the value
    [json.loads] returns for it; formatting covers the scalars; the text of
    the serialised summary is elided. *)
Module Sample.

Definition dq : string := String (ascii_of_nat 34) EmptyString.

(** [s] between double quotes. *)
Definition q (s : string) : string := dq ++ s ++ dq.

(** The object of scenario A. *)
Definition eqeq_text : string :=
  "{" ++ q "rulename" ++ ": " ++ q "eqeq" ++ ", " ++ q "matches" ++ ": [{"
  ++ q "path" ++ ": " ++ q "a.py" ++ ", " ++ q "start" ++ ": {" ++ q "line" ++ ": 5}, "
  ++ q "extra" ++ ": {" ++ q "lines" ++ ": " ++ q "x==y" ++ ", "
  ++ q "message" ++ ": " ++ q "use is" ++ "}}]}".

Definition eqeq_value : json :=
  JDict
    [ ("rulename", JStr "eqeq");
      ("matches",
       JList [ JDict [ ("path", JStr "a.py");
                       ("start", JDict [ ("line", JInt 5) ]);
                       ("extra", JDict [ ("lines", JStr "x==y");
                                         ("message", JStr "use is") ]) ] ]) ].

(** The object of scenario B. *)
Definition lodash_text : string :=
  "{" ++ q "rulename" ++ ": " ++ q "package_scan" ++ ", "
  ++ q "vulnerabilities" ++ ": {" ++ q "lodash" ++ ": {"
  ++ q "severity" ++ ": " ++ q "high" ++ ", " ++ q "isDirect" ++ ": true, "
  ++ q "fixAvailable" ++ ": true}}, "
  ++ q "metadata" ++ ": {" ++ q "vulnerabilities" ++ ": {"
  ++ q "high" ++ ": 1, " ++ q "total" ++ ": 1}}}".

(** An array of four elements: the finding, a number, the package scan and a
    second entry of the first rule, without matches. *)
Definition mixed_text : string :=
  "[" ++ eqeq_text ++ ", 7, " ++ lodash_text ++ ", {" ++ q "rulename" ++ ": " ++ q "eqeq"
  ++ ", " ++ q "matches" ++ ": []}]".

Definition mixed_value : json :=
  JList [ eqeq_value;
          JInt 7;
          lodash_scan;
          JDict [ ("rulename", JStr "eqeq"); ("matches", JList []) ] ].

(** An object whose [matches] is a number. *)
Definition mistyped_text : string := "[{" ++ q "matches" ++ ": 5}]".

Definition mistyped_value : json := JList [ JDict [ ("matches", JInt 5) ] ].

(** The empty object, once and twice encoded as a string. *)
Definition object_text : string := "{}".
Definition object_in_string : string := q "{}".
Definition object_in_string_in_string : string :=
  dq ++ "\" ++ dq ++ "{}" ++ "\" ++ dq ++ dq.

(** The empty array encoded as a string (scenario C). *)
Definition array_in_string : string := q "[]".

Definition decode_table : list (string * json) :=
  [ (eqeq_text, eqeq_value);
    ("[" ++ eqeq_text ++ "]", JList [eqeq_value]);
    ("[" ++ lodash_text ++ "]", JList [lodash_scan]);
    (mixed_text, mixed_value);
    (mistyped_text, mistyped_value);
    (object_text, JDict []);
    (object_in_string, JStr object_text);
    (object_in_string_in_string, JStr object_in_string);
    ("[]", JList []);
    (array_in_string, JStr "[]") ].

Definition loads (text : string) : string + json :=
  match dict_find decode_table text with
  | Some v => inr v
  | None => inl "Expecting value: line 1 column 1 (char 0)"
  end.

Definition str (v : json) : string :=
  match v with
  | JNull => "None"
  | JBool true => "True"
  | JBool false => "False"
  | JInt z => NilZero.string_of_int (Z.to_int z)
  | JStr s => s
  | _ => "..."
  end.

Definition runtime : Runtime :=
  {| json_loads := loads;
     py_str := str;
     json_dumps := fun _ => "{...}";
     now_stamp := "20240101120000";
     path_str := fun p => p;
     path_join := fun p name => p ++ "/" ++ name;
     os_mkdir := fun _ => None;
     os_open_w := fun _ => None;
     os_write := fun _ _ => None |}.

(** The file system with one readable file. *)
Definition file_with (path text : string) : files :=
  fun p =>
    if String.eqb p path then inr text
    else inl ("[Errno 2] No such file or directory: '" ++ p ++ "'").

Definition path : string := "results/combined/myserver_20240101.json".
Definition out : string := "results/reduced".

Definition mixed_summary : summary :=
  {| total_findings := 1;
     findings_by_rule := [ (JStr "eqeq", 0); (JStr "package_scan", 0) ];
     all_matches :=
       [ [ ("rule", JStr "eqeq");
           ("path", JStr "a.py");
           ("line", JInt 5);
           ("snippet", JStr "x==y");
           ("message", JStr "use is");
           ("type", JStr "finding") ] ]
       ++ all_matches lodash_summary;
     vulnerability_summary := vulnerability_summary lodash_summary |}.

End Sample.

Definition mixed_files : files := Sample.file_with Sample.path Sample.mixed_text.

Definition missing_text : string :=
  "[Errno 2] No such file or directory: 'missing.json'".

(** ** Vocabulary of the further properties *)

(** The first and the last line of the log of a run. *)
Definition start_line (p : string) : event :=
  Log INFO ("Reading combined results from " ++ p).

Definition done_line (R : Runtime) (out : string) : event :=
  Log INFO ("Reduced results saved to " ++ path_str R out).

(** The paths of lines 105 and 111. *)
Definition json_path_of (R : Runtime) (p out : string) : string :=
  path_join R out (server_name_of p ++ "_" ++ now_stamp R ++ "_reduced.json").

Definition txt_path_of (R : Runtime) (p out : string) : string :=
  path_join R out (server_name_of p ++ "_" ++ now_stamp R ++ "_summary.txt").

(** The keys of the records and of the severity counts, in order. *)
Definition finding_keys : list string :=
  [ "rule"; "path"; "line"; "snippet"; "message"; "type" ].

Definition vulnerability_keys : list string :=
  [ "rule"; "package"; "severity"; "is_direct"; "via"; "effects"; "version_range";
    "nodes"; "fix_available"; "type" ].

Definition severity_keys : list string :=
  [ "info"; "low"; "moderate"; "high"; "critical"; "total" ].

(** [m] was built by lines 62-73 or by lines 89-96. *)
Definition built_record (m : pydict) : Prop :=
  (exists rn mt, finding_of rn mt m) \/ (exists rn item, vulnerability_of rn item m).

(** Further documents: a string holding text that is no JSON, and a package
    scan whose [via] holds an advisory object, as [npm audit] reports it. *)
Module Sample2.

Definition oops_in_string : string := Sample.q "oops".

Definition advisory_text : string :=
  "[{" ++ Sample.q "rulename" ++ ": " ++ Sample.q "package_scan" ++ ", "
  ++ Sample.q "vulnerabilities" ++ ": {" ++ Sample.q "lodash" ++ ": {"
  ++ Sample.q "via" ++ ": [{" ++ Sample.q "source" ++ ": 1}]}}}]".

Definition advisory_value : json :=
  JList
    [ JDict
        [ ("rulename", JStr "package_scan");
          ("vulnerabilities",
           JDict [ ("lodash",
                    JDict [ ("via", JList [ JDict [ ("source", JInt 1) ] ]) ]) ]) ] ].

(** A number, then an object whose [matches] is a number. *)
Definition number_then_mistyped_text : string :=
  "[7, {" ++ Sample.q "matches" ++ ": 5}]".

Definition number_then_mistyped_value : json :=
  JList [ JInt 7; JDict [ ("matches", JInt 5) ] ].

(** The finding and the package scan of scenarios A and B, each in a
    document and both in one. *)
Definition finding_then_scan_text : string :=
  "[" ++ Sample.eqeq_text ++ ", " ++ Sample.lodash_text ++ "]".

Definition decode_table : list (string * json) :=
  [ (oops_in_string, JStr "oops");
    (advisory_text, advisory_value);
    (number_then_mistyped_text, number_then_mistyped_value);
    ("[" ++ Sample.eqeq_text ++ "]", JList [Sample.eqeq_value]);
    ("[" ++ Sample.lodash_text ++ "]", JList [lodash_scan]);
    (finding_then_scan_text, JList [Sample.eqeq_value; lodash_scan]) ].

Definition loads (text : string) : string + json :=
  match dict_find decode_table text with
  | Some v => inr v
  | None => inl "Expecting value: line 1 column 1 (char 0)"
  end.

Definition runtime : Runtime :=
  {| json_loads := loads;
     py_str := Sample.str;
     json_dumps := fun _ => "{...}";
     now_stamp := "20240101120000";
     path_str := fun p => p;
     path_join := fun p name => p ++ "/" ++ name;
     os_mkdir := fun _ => None;
     os_open_w := fun _ => None;
     os_write := fun _ _ => None |}.

(** The summary of the advisory document after the loop. *)
Definition advisory_summary : summary :=
  {| total_findings := 0;
     findings_by_rule := [ (JStr "package_scan", 0) ];
     all_matches :=
       [ [ ("rule", JStr "package_scan");
           ("package", JStr "lodash");
           ("severity", JStr EmptyString);
           ("is_direct", JBool false);
           ("via", JList [ JDict [ ("source", JInt 1) ] ]);
           ("effects", JList []);
           ("version_range", JStr EmptyString);
           ("nodes", JList []);
           ("fix_available", JBool false);
           ("type", JStr "vulnerability") ] ];
     vulnerability_summary :=
       Some [ ("info", JInt 0);
              ("low", JInt 0);
              ("moderate", JInt 0);
              ("high", JInt 0);
              ("critical", JInt 0);
              ("total", JInt 0) ] |}.

(** A runtime with the same decoder, another clock and another formatting. *)
Definition later_runtime : Runtime :=
  {| json_loads := loads;
     py_str := fun _ => "?";
     json_dumps := fun _ => "{...}";
     now_stamp := "20250630235959";
     path_str := fun p => p;
     path_join := fun p name => p ++ "/" ++ name;
     os_mkdir := fun _ => None;
     os_open_w := fun _ => None;
     os_write := fun _ _ => None |}.

End Sample2.

(** The file that the entry point writes with the given suffix. *)
Definition main_file (R : Runtime) (suffix : string) : string :=
  path_join R "./results/reduced" ("combined_" ++ now_stamp R ++ suffix).

(** The file system in which the default input of the entry point holds the
    four-element document. *)
Definition default_files : files :=
  Sample.file_with "./results/combined/combined_results.json" Sample.mixed_text.

(** The block [m] raises no exception but those of [Q]. *)
Definition raises_only (Q : pyexc -> Prop) {A : Type} (m : M A) : Prop :=
  forall e, snd m = inl e -> Q e.

(** The exceptions of ill-typed input. *)
Definition type_or_attribute_error (e : pyexc) : Prop :=
  e = TypeError \/ e = AttributeError.

(** [len(v)] is defined; [v] can be a dictionary key. *)
Definition sized (v : json) : bool :=
  match py_len v with
  | inr _ => true
  | inl _ => false
  end.

Definition hashable (v : json) : bool :=
  match py_hash_key v with
  | Some _ => true
  | None => false
  end.

(** The object entries that a run takes without raising an exception: the
    rule name is no list or object and [matches] has a length; in a package
    scan, [vulnerabilities] maps to objects whose [via], [effects] and [nodes]
    can be joined and [metadata.vulnerabilities] is an object; in another
    entry, the elements of [matches] are objects whose [start] and [extra] are
    objects. *)
Definition accepted (r : pydict) : bool :=
  sized (matches_of r) && hashable (rulename_of r)
  && if is_package_scan r then
       match vulnerabilities_of r with
       | JDict vulns => forallb (fun item => well_typed_vulnerability (snd item)) vulns
       | _ => false
       end
       && match dict_get r "metadata" (JDict []) with
          | JDict md => is_dict (dict_get md "vulnerabilities" (JDict []))
          | _ => false
          end
     else
       match py_iter (matches_of r) with
       | inr ms => forallb well_typed_match ms
       | inl _ => false
       end.

(** The exceptions of the output: a join that fails, or an error of the
    system. *)
Definition type_or_env_error (e : pyexc) : Prop :=
  e = TypeError \/ exists text, e = EnvError text.

(** Keys, compared as dictionary keys; an unhashable value has none. *)
Definition okey_eq_dec (a b : option hkey) : {a = b} + {a <> b}.
Proof. decide equality. apply hkey_eq_dec. Defined.

Definition differs (x y : option hkey) : bool :=
  if okey_eq_dec x y then false else true.

(** The keys of a dict, in its order; the keys of the rule names of entries,
    in the order of the entries. *)
Definition keys_of (d : kdict) : list (option hkey) :=
  map (fun kv => py_hash_key (fst kv)) d.

Definition rule_keys (l : list pydict) : list (option hkey) :=
  map (fun r => py_hash_key (rulename_of r)) l.

(** Insertion of a key as the assignment does it: an equal key keeps its
    place, a new key goes last. *)
Fixpoint add_key (x : option hkey) (l : list (option hkey)) : list (option hkey) :=
  match l with
  | [] => [x]
  | y :: r => if okey_eq_dec y x then y :: r else y :: add_key x r
  end.

(** [y] does not occur in [acc]. *)
Definition absent_from (acc : list (option hkey)) (y : option hkey) : bool :=
  if in_dec okey_eq_dec y acc then false else true.

(** [l] without the repetitions of an element after its first occurrence. *)
Fixpoint first_occurrences (l : list (option hkey)) : list (option hkey) :=
  match l with
  | [] => []
  | x :: r => x :: filter (differs x) (first_occurrences r)
  end.

(** The sum of the counts of a dict. *)
Definition sum_counts (d : kdict) : nat := list_sum (map snd d).

(** The summary of scenario A. *)
Definition one_finding_summary : summary :=
  {| total_findings := 1;
     findings_by_rule := [ (JStr "eqeq", 1) ];
     all_matches :=
       [ [ ("rule", JStr "eqeq");
           ("path", JStr "a.py");
           ("line", JInt 5);
           ("snippet", JStr "x==y");
           ("message", JStr "use is");
           ("type", JStr "finding") ] ];
     vulnerability_summary := None |}.

(** The summary of scenarios A and B in one document. *)
Definition finding_then_scan_summary : summary :=
  {| total_findings := 1;
     findings_by_rule := [ (JStr "eqeq", 1); (JStr "package_scan", 0) ];
     all_matches := all_matches one_finding_summary ++ all_matches lodash_summary;
     vulnerability_summary := vulnerability_summary lodash_summary |}.

(** Line 118: the line of one rule in the report at [f]. *)
Definition rule_line (R : Runtime) (f : string) (item : json * nat) : event :=
  FWrite f ("- " ++ py_str R (fst item) ++ ": " ++ str_of_nat R (snd item)
            ++ " finding(s)" ++ nl).

(** * Properties *)

(** ** Reading a run *)

Lemma bind_inr {A B : Type} (m : M A) (k : A -> M B) (t : list event) (b : B) :
  bind m k = (t, inr b) ->
  exists t1 a t2, m = (t1, inr a) /\ k a = (t2, inr b) /\ t = (t1 ++ t2)%list.
Proof.
  unfold bind. destruct m as [t1 [e | a]]; [discriminate |].
  destruct (k a) as [t2 r] eqn:Hk. intros H. inversion H; subst.
  exists t1, a, t2. auto.
Qed.

Lemma lift_bind_inr {A B : Type} (r : result A) (k : A -> M B) (t : list event) (b : B) :
  bind (lift r) k = (t, inr b) -> exists a, r = inr a /\ k a = (t, inr b).
Proof.
  intros H. apply bind_inr in H. destruct H as (t1 & a & t2 & H1 & H2 & ->).
  unfold lift in H1. inversion H1; subst. exists a. auto.
Qed.

Lemma bind_lift_inr {A B : Type} (a : A) (k : A -> M B) :
  bind (lift (inr a)) k = k a.
Proof. unfold bind, lift. destruct (k a). reflexivity. Qed.

Lemma bind_ret {A B : Type} (a : A) (k : A -> M B) : bind (ret a) k = k a.
Proof. unfold bind, ret. destruct (k a). reflexivity. Qed.

Lemma bind_silent {A B : Type} (a : A) (k : A -> M B) : bind ([], inr a) k = k a.
Proof. exact (bind_ret a k). Qed.

Lemma vulnerability_match_dict (rn : json) (pkg : string) (d : pydict) :
  vulnerability_match rn pkg (JDict d) = ([], inr (vulnerability_record rn pkg d)).
Proof. reflexivity. Qed.

Lemma vulnerability_match_inv (rn : json) (pkg : string) (v : json)
    (t : list event) (m : pydict) :
  vulnerability_match rn pkg v = (t, inr m) ->
  exists d, v = JDict d /\ t = [] /\ m = vulnerability_record rn pkg d.
Proof.
  destruct v; try discriminate.
  rewrite vulnerability_match_dict. intros H. inversion H; subst. eauto.
Qed.

Lemma finding_match_dict (rn : json) (d ds de : pydict) :
  dict_get d "start" (JDict []) = JDict ds ->
  dict_get d "extra" (JDict []) = JDict de ->
  finding_match rn (JDict d) = ([], inr (finding_record rn d ds de)).
Proof.
  intros Hs He. unfold finding_match, getM, py_get. rewrite Hs, He. reflexivity.
Qed.

Lemma finding_match_inv (rn mt : json) (t : list event) (m : pydict) :
  finding_match rn mt = (t, inr m) ->
  exists d ds de,
    mt = JDict d /\ dict_get d "start" (JDict []) = JDict ds /\
    dict_get d "extra" (JDict []) = JDict de /\
    t = [] /\ m = finding_record rn d ds de.
Proof.
  destruct mt; try discriminate.
  unfold finding_match, getM, py_get.
  destruct (dict_get d "start" (JDict [])) eqn:Hs; try discriminate.
  destruct (dict_get d "extra" (JDict [])) eqn:He; try discriminate.
  intros H. inversion H; subst. exists d, d0, d1. auto.
Qed.

Lemma severity_counts_dict (r md : pydict) :
  py_get (dict_get r "metadata" (JDict [])) "vulnerabilities" (JDict []) = inr (JDict md) ->
  severity_counts r = ([], inr (counts_record md)).
Proof.
  intros H. unfold severity_counts, getM. rewrite H. reflexivity.
Qed.

Lemma severity_counts_inv (r : pydict) (t : list event) (c : pydict) :
  severity_counts r = (t, inr c) ->
  exists md,
    py_get (dict_get r "metadata" (JDict [])) "vulnerabilities" (JDict []) = inr (JDict md) /\
    t = [] /\ c = counts_record md.
Proof.
  unfold severity_counts, getM.
  destruct (py_get (dict_get r "metadata" (JDict [])) "vulnerabilities" (JDict []))
    as [e | v] eqn:Hm; try discriminate.
  destruct v; try discriminate.
  intros H. inversion H; subst. eauto.
Qed.

Lemma append_matches_nil (s : summary) : append_matches s [] = s.
Proof. destruct s. unfold append_matches. cbn. rewrite app_nil_r. reflexivity. Qed.

Lemma append_matches_cons (s : summary) (m : pydict) (ms : list pydict) :
  append_matches (append_match s m) ms = append_matches s (m :: ms).
Proof.
  unfold append_matches, append_match. cbn. rewrite <- app_assoc. reflexivity.
Qed.

Lemma for_each_cons_inr {A S : Type} (body : S -> A -> M S) (s s' : S) (x : A)
    (l : list A) (t : list event) :
  for_each body s (x :: l) = (t, inr s') ->
  exists t1 s1 t2,
    body s x = (t1, inr s1) /\ for_each body s1 l = (t2, inr s') /\ t = (t1 ++ t2)%list.
Proof. cbn [for_each]. apply bind_inr. Qed.

Section AppendLoop.
Context {A : Type} (g : A -> M pydict) (rel : A -> pydict -> Prop).
Hypothesis g_inv : forall x t m, g x = (t, inr m) -> t = [] /\ rel x m.
Hypothesis g_ok : forall x m, rel x m -> g x = ([], inr m).

Let body := fun (s : summary) (x : A) => m <- g x ;; ret (append_match s m).

Lemma append_loop_inv (l : list A) : forall s t s',
  for_each body s l = (t, inr s') ->
  t = [] /\ exists recs, Forall2 rel l recs /\ s' = append_matches s recs.
Proof.
  induction l as [| x l IH]; intros s t s' H.
  - cbn in H. inversion H; subst. split; [reflexivity |].
    exists []. split; [constructor | now rewrite append_matches_nil].
  - apply for_each_cons_inr in H. destruct H as (t1 & s1 & t2 & Hb & Hl & ->).
    unfold body in Hb. apply bind_inr in Hb.
    destruct Hb as (ta & m & tb & Hg & Hr & ->).
    apply g_inv in Hg. destruct Hg as [-> Hrel].
    unfold ret in Hr. inversion Hr; subst.
    apply IH in Hl. destruct Hl as [-> (recs & HF & ->)].
    split; [reflexivity |].
    exists (m :: recs). split; [constructor; assumption |].
    apply append_matches_cons.
Qed.

Lemma append_loop_ok (l : list A) : forall s recs,
  Forall2 rel l recs ->
  for_each body s l = ([], inr (append_matches s recs)).
Proof.
  induction l as [| x l IH]; intros s recs HF; inversion HF; subst.
  - cbn. now rewrite append_matches_nil.
  - cbn [for_each]. unfold body at 1. rewrite (g_ok _ _ H1).
    rewrite bind_silent, bind_ret. fold body.
    rewrite (IH _ _ H3). now rewrite append_matches_cons.
Qed.
End AppendLoop.

(** ** What one entry does to the summary *)

Lemma vulnerability_step_inv (rn : json) (item : string * json) (t : list event) (m : pydict) :
  vulnerability_match rn (fst item) (snd item) = (t, inr m) ->
  t = [] /\ vulnerability_of rn item m.
Proof.
  intros H. apply vulnerability_match_inv in H. destruct H as (d & Hd & -> & ->).
  split; [reflexivity | exists d; auto].
Qed.

Lemma vulnerability_step_ok (rn : json) (item : string * json) (m : pydict) :
  vulnerability_of rn item m ->
  vulnerability_match rn (fst item) (snd item) = ([], inr m).
Proof. intros (d & Hd & ->). rewrite Hd. apply vulnerability_match_dict. Qed.

Lemma finding_step_inv (rn mt : json) (t : list event) (m : pydict) :
  finding_match rn mt = (t, inr m) -> t = [] /\ finding_of rn mt m.
Proof.
  intros H. apply finding_match_inv in H.
  destruct H as (d & ds & de & -> & Hs & He & -> & ->).
  split; [reflexivity | exists d, ds, de; auto].
Qed.

Lemma finding_step_ok (rn mt : json) (m : pydict) :
  finding_of rn mt m -> finding_match rn mt = ([], inr m).
Proof. intros (d & ds & de & -> & Hs & He & ->). now apply finding_match_dict. Qed.

Lemma process_result_dict_inv (R : Runtime) (s s' : summary) (r : pydict) (t : list event) :
  process_result R s (JDict r) = (t, inr s') -> t = [] /\ entry_effect s r s'.
Proof.
  unfold process_result. intros H.
  apply lift_bind_inr in H. destruct H as (n & Hn & H).
  apply lift_bind_inr in H. destruct H as (fbr & Hf & H).
  destruct (py_eq_str (dict_get r "rulename" (JStr "unknown")) "package_scan") eqn:Hp.
  - apply lift_bind_inr in H. destruct H as (vulns & Hv & H).
    apply bind_inr in H. destruct H as (t1 & s1 & t2 & Hl & H & ->).
    apply (append_loop_inv _ _ (vulnerability_step_inv _)) in Hl.
    destruct Hl as [-> (recs & HF & ->)].
    apply bind_inr in H. destruct H as (t3 & c & t4 & Hc & H & ->).
    apply severity_counts_inv in Hc. destruct Hc as (md & Hmd & -> & ->).
    unfold ret in H. inversion H; subst. split; [reflexivity |].
    destruct (dict_get r "vulnerabilities" (JDict [])) eqn:Hvd; try discriminate.
    cbn in Hv. inversion Hv; subst.
    exact (effect_package s r n fbr vulns recs md Hp Hn Hf Hvd HF Hmd).
  - apply lift_bind_inr in H. destruct H as (ms & Hi & H).
    apply (append_loop_inv _ _ (finding_step_inv _)) in H.
    destruct H as [-> (recs & HF & ->)]. split; [reflexivity |].
    exact (effect_regular s r n fbr ms recs Hp Hn Hf Hi HF).
Qed.

Lemma process_result_dict_ok (R : Runtime) (s s' : summary) (r : pydict) :
  entry_effect s r s' -> process_result R s (JDict r) = ([], inr s').
Proof.
  intros H. unfold process_result.
  destruct H as [n fbr vulns recs md Hp Hn Hf Hv HF Hmd | n fbr ms recs Hp Hn Hf Hi HF];
    unfold is_package_scan, rulename_of, matches_of, vulnerabilities_of in *;
    rewrite Hn, bind_lift_inr, Hf, bind_lift_inr, Hp.
  - rewrite Hv. cbn [py_items]. rewrite bind_lift_inr.
    rewrite (append_loop_ok _ _ (vulnerability_step_ok _) _ _ _ HF), bind_silent.
    rewrite (severity_counts_dict _ _ Hmd), bind_silent. reflexivity.
  - rewrite Hi, bind_lift_inr.
    rewrite (append_loop_ok _ _ (finding_step_ok _) _ _ _ HF). reflexivity.
Qed.

(** ** What the loop of lines 46-97 does *)

Lemma process_result_non_dict (R : Runtime) (s : summary) (x : json) :
  is_dict x = false -> process_result R s x = ([skip_warning R x], inr s).
Proof. destruct x; intros H; try discriminate; reflexivity. Qed.

Lemma loop_inv (R : Runtime) (es : list json) : forall s t s',
  for_each (process_result R) s es = (t, inr s') ->
  t = map (skip_warning R) (non_dicts es) /\ entries_effect s (dicts es) s'.
Proof.
  induction es as [| x es IH]; intros s t s' H.
  - cbn in H. inversion H; subst. split; [reflexivity | constructor].
  - apply for_each_cons_inr in H. destruct H as (t1 & s1 & t2 & Hb & Hl & ->).
    apply IH in Hl. destruct Hl as [-> Hl].
    destruct (is_dict x) eqn:Hx.
    + destruct x; try discriminate.
      apply process_result_dict_inv in Hb. destruct Hb as [-> Hb].
      split; [reflexivity | econstructor; eassumption].
    + rewrite (process_result_non_dict R s x Hx) in Hb. inversion Hb; subst.
      unfold non_dicts. cbn [filter]. rewrite Hx. cbn [negb map app].
      split; [reflexivity |]. destruct x; try discriminate; assumption.
Qed.

Lemma loop_ok (R : Runtime) (es : list json) : forall s s',
  entries_effect s (dicts es) s' ->
  for_each (process_result R) s es = (map (skip_warning R) (non_dicts es), inr s').
Proof.
  induction es as [| x es IH]; intros s s' H.
  - inversion H; subst. reflexivity.
  - cbn [for_each]. destruct (is_dict x) eqn:Hx.
    + destruct x; try discriminate. cbn [dicts] in H. inversion H; subst.
      rewrite (process_result_dict_ok R _ _ _ H3), bind_silent.
      rewrite (IH _ _ H5). reflexivity.
    + rewrite (process_result_non_dict R s x Hx).
      assert (Hd : dicts (x :: es) = dicts es) by (destruct x; try discriminate; reflexivity).
      rewrite Hd in H. unfold bind. rewrite (IH _ _ H).
      unfold non_dicts. cbn [filter]. rewrite Hx. reflexivity.
Qed.

(** ** The entries a run processes (lines 26-44) *)

Lemma save_outputs_inr (R : Runtime) (sn ts out : string) (s s' : summary) (t : list event) :
  save_outputs R sn ts out s = (t, inr s') -> s' = s.
Proof.
  unfold save_outputs. intros H.
  repeat (apply bind_inr in H; destruct H as (? & ? & ? & _ & H & _)).
  unfold ret in H. now inversion H.
Qed.

Lemma reduce_results_inv (R : Runtime) (fs : files) (p out : string)
    (t : list event) (s : summary) :
  reduce_results R fs p out = (t, inr s) ->
  exists es,
    combined_entries R fs p = inr es /\ entries_effect empty_summary (dicts es) s.
Proof.
  unfold reduce_results, combined_entries. intros H.
  apply bind_inr in H. destruct H as (t0 & [] & t1 & _ & H & _).
  destruct (json_load R fs p) as [text | v].
  - apply bind_inr in H. destruct H as (? & ? & ? & _ & H & _). discriminate.
  - apply bind_inr in H. destruct H as (ta & v' & tb & Hd & H & _).
    apply bind_inr in H. destruct H as (tc & s1 & td & Hl & H & _).
    apply save_outputs_inr in H. subst s1.
    apply loop_inv in Hl. destruct Hl as [_ Hl].
    assert (Hes : match v with
                  | JStr s0 => match json_loads R s0 with
                               | inl text => inl text
                               | inr v0 => inr (as_list v0)
                               end
                  | _ => inr (as_list v)
                  end = (inr (as_list v') : string + list json)).
    { destruct v; cbn in Hd; try (inversion Hd; subst; reflexivity).
      destruct (json_loads R s0); [discriminate |]. inversion Hd; subst. reflexivity. }
    exists (as_list v'). split; [| exact Hl].
    destruct v; exact Hes.
Qed.

(** ** Counters *)

Lemma entry_effect_total (s s' : summary) (r : pydict) :
  entry_effect s r s' ->
  has_len (matches_of r) /\ total_findings s' = total_findings s + len0 (matches_of r).
Proof.
  intros H. destruct H; unfold has_len, len0;
    match goal with Hn : py_len _ = inr _ |- _ => rewrite Hn end;
    cbn [total_findings]; eauto.
Qed.

Lemma entries_effect_total (s s' : summary) (l : list pydict) :
  entries_effect s l s' ->
  Forall (fun r => has_len (matches_of r)) l /\
  total_findings s' = total_findings s + list_sum (map (fun r => len0 (matches_of r)) l).
Proof.
  induction 1 as [s | s s1 s' r l He Hl [IHF IHt]].
  - split; [constructor | cbn; lia].
  - apply entry_effect_total in He. destruct He as [Hn He].
    split; [constructor; assumption |].
    unfold list_sum in *. cbn [map fold_right]. lia.
Qed.

Lemma length_chars (s : string) : List.length (chars s) = String.length s.
Proof.
  unfold chars. rewrite length_map.
  induction s as [| c s IH]; cbn; [reflexivity | now rewrite IH].
Qed.

Lemma py_iter_len (v : json) (ms : list json) :
  py_iter v = inr ms -> py_len v = inr (List.length ms).
Proof.
  destruct v; cbn; intros H; inversion H; subst;
    rewrite ?length_map, ?length_chars; reflexivity.
Qed.

Lemma entry_effect_matches (s s' : summary) (r : pydict) :
  entry_effect s r s' ->
  List.length (all_matches s') = List.length (all_matches s) + records_added r.
Proof.
  intros H. unfold records_added.
  destruct H as [n fbr vulns recs md Hp Hn Hf Hv HF Hmd | n fbr ms recs Hp Hn Hf Hi HF];
    rewrite Hp; cbn [all_matches]; rewrite length_app; f_equal.
  - rewrite Hv. unfold len0. cbn. symmetry. eapply Forall2_length; eassumption.
  - unfold len0. rewrite (py_iter_len _ _ Hi). symmetry. eapply Forall2_length; eassumption.
Qed.

Lemma entries_effect_matches (s s' : summary) (l : list pydict) :
  entries_effect s l s' ->
  List.length (all_matches s') =
  List.length (all_matches s) + list_sum (map records_added l).
Proof.
  induction 1 as [s | s s1 s' r l He Hl IH].
  - cbn; lia.
  - apply entry_effect_matches in He.
    unfold list_sum in *. cbn [map fold_right]. lia.
Qed.

(** C1.  Whenever [reduce_results] returns a summary, the entries it
    processed being [es], [len(matches)] is defined for every dict-shaped
    entry (with [matches] defaulting to the empty list) and [total_findings]
    is the sum of these lengths over all dict-shaped entries, package scans
    included.  The sum does not mention [vulnerabilities]: vulnerability
    records contribute nothing to it. *)
Theorem total_findings_sums_match_counts (R : Runtime) (fs : files) (p out : string)
    (t : list event) (s : summary) :
  reduce_results R fs p out = (t, inr s) ->
  exists es,
    combined_entries R fs p = inr es /\
    Forall (fun r => has_len (matches_of r)) (dicts es) /\
    total_findings s = list_sum (map (fun r => len0 (matches_of r)) (dicts es)).
Proof.
  intros H. apply reduce_results_inv in H. destruct H as (es & Hes & He).
  exists es. split; [assumption |].
  apply entries_effect_total in He. destruct He as [HF Ht].
  split; [assumption | exact Ht].
Qed.

(** C2.  Whenever [reduce_results] returns a summary, the length of
    [all_matches] is the number of matches of the entries that are not
    package scans plus the number of entries of the [vulnerabilities] mapping
    of the entries that are package scans; the matches of a package scan add
    nothing. *)
Theorem all_matches_length (R : Runtime) (fs : files) (p out : string)
    (t : list event) (s : summary) :
  reduce_results R fs p out = (t, inr s) ->
  exists es,
    combined_entries R fs p = inr es /\
    List.length (all_matches s) =
      list_sum (map (fun r => len0 (matches_of r))
                  (filter (fun r => negb (is_package_scan r)) (dicts es)))
      + list_sum (map (fun r => len0 (vulnerabilities_of r))
                    (filter is_package_scan (dicts es))).
Proof.
  intros H. apply reduce_results_inv in H. destruct H as (es & Hes & He).
  exists es. split; [assumption |].
  apply entries_effect_matches in He. cbn in He. rewrite He.
  clear. induction (dicts es) as [| r l IH]; [reflexivity |].
  unfold list_sum in *. cbn [map fold_right filter]. unfold records_added at 1.
  destruct (is_package_scan r); cbn [negb map fold_right]; lia.
Qed.

(** ** Overwriting: [findings_by_rule] and [vulnerability_summary] *)

Lemma find_app_or {A : Type} (p : A -> bool) (l1 l2 : list A) :
  find p (l1 ++ l2)%list =
  match find p l1 with
  | Some x => Some x
  | None => find p l2
  end.
Proof.
  induction l1 as [| x l1 IH]; cbn; [reflexivity |].
  destruct (p x); [reflexivity | exact IH].
Qed.

Lemma last_with_cons {A : Type} (p : A -> bool) (x : A) (l : list A) :
  last_with p (x :: l) =
  match last_with p l with
  | Some y => Some y
  | None => if p x then Some x else None
  end.
Proof. unfold last_with. cbn [rev]. rewrite find_app_or. reflexivity. Qed.

Lemma has_key_hash (h h' : hkey) (k : json) :
  py_hash_key k = Some h -> has_key h' k = if hkey_eq_dec h h' then true else false.
Proof. unfold has_key. intros ->. reflexivity. Qed.

Lemma kdict_find_set (d : kdict) (h h' : hkey) (k : json) (v : nat) :
  py_hash_key k = Some h ->
  kdict_find (kdict_set d h k v) h' =
  if hkey_eq_dec h h' then Some v else kdict_find d h'.
Proof.
  intros Hk. induction d as [| [k' v'] d IH]; cbn [kdict_set kdict_find].
  - rewrite (has_key_hash _ h' _ Hk). destruct (hkey_eq_dec h h'); reflexivity.
  - destruct (has_key h k') eqn:Hh; cbn [kdict_find].
    + unfold has_key in *. destruct (py_hash_key k') as [h0 |]; [| discriminate].
      destruct (hkey_eq_dec h0 h) as [-> |]; [| discriminate].
      destruct (hkey_eq_dec h h'); reflexivity.
    + rewrite IH. destruct (hkey_eq_dec h h') as [<- |]; [| reflexivity].
      rewrite Hh. reflexivity.
Qed.

Lemma entry_effect_findings (s s' : summary) (r : pydict) (h : hkey) :
  entry_effect s r s' ->
  kdict_find (findings_by_rule s') h =
  if has_key h (rulename_of r) then Some (len0 (matches_of r))
  else kdict_find (findings_by_rule s) h.
Proof.
  intros H.
  assert (Hc : exists n fbr, py_len (matches_of r) = inr n /\
                 dict_setitem (findings_by_rule s) (rulename_of r) n = inr fbr /\
                 findings_by_rule s' = fbr).
  { destruct H; eauto 6. }
  destruct Hc as (n & fbr & Hn & Hf & ->).
  unfold dict_setitem in Hf.
  destruct (py_hash_key (rulename_of r)) as [h0 |] eqn:Hk; [| discriminate].
  inversion Hf; subst. rewrite (kdict_find_set _ _ h _ _ Hk).
  rewrite (has_key_hash _ h _ Hk). unfold len0. rewrite Hn.
  destruct (hkey_eq_dec h0 h); reflexivity.
Qed.

Lemma entries_effect_findings (s s' : summary) (l : list pydict) (h : hkey) :
  entries_effect s l s' ->
  kdict_find (findings_by_rule s') h =
  match last_with (fun r => has_key h (rulename_of r)) l with
  | Some r => Some (len0 (matches_of r))
  | None => kdict_find (findings_by_rule s) h
  end.
Proof.
  induction 1 as [s | s s1 s' r l He Hl IH]; [reflexivity |].
  rewrite IH, last_with_cons.
  destruct (last_with (fun r0 => has_key h (rulename_of r0)) l); [reflexivity |].
  rewrite (entry_effect_findings _ _ _ h He).
  destruct (has_key h (rulename_of r)); reflexivity.
Qed.

Lemma entry_effect_vulnerability_summary (s s' : summary) (r : pydict) :
  entry_effect s r s' ->
  if is_package_scan r
  then exists md, severity_metadata r = Some md /\
                  vulnerability_summary s' = Some (counts_record md)
  else vulnerability_summary s' = vulnerability_summary s.
Proof.
  intros H.
  destruct H as [n fbr vulns recs md Hp Hn Hf Hv HF Hmd | n fbr ms recs Hp Hn Hf Hi HF];
    rewrite Hp; cbn [vulnerability_summary]; [| reflexivity].
  exists md. unfold severity_metadata. rewrite Hmd. auto.
Qed.

Lemma entries_effect_vulnerability_summary (s s' : summary) (l : list pydict) :
  entries_effect s l s' ->
  match last_with is_package_scan l with
  | Some r => exists md, severity_metadata r = Some md /\
                         vulnerability_summary s' = Some (counts_record md)
  | None => vulnerability_summary s' = vulnerability_summary s
  end.
Proof.
  induction 1 as [s | s s1 s' r l He Hl IH]; [reflexivity |].
  rewrite last_with_cons.
  destruct (last_with is_package_scan l); [exact IH |].
  apply entry_effect_vulnerability_summary in He.
  destruct (is_package_scan r); [| congruence].
  destruct He as (md & Hm & Hs). exists md. split; [assumption | congruence].
Qed.

Lemma last_with_never {A : Type} (l : list A) : last_with (fun _ => false) l = None.
Proof.
  unfold last_with. induction (rev l) as [| x l' IH]; [reflexivity | exact IH].
Qed.

(** C8.  Whenever [reduce_results] returns a summary: for every key [k],
    [findings_by_rule] maps [k] to the match count of the last dict-shaped
    entry whose rule name is the key [k], and has no such key when there is no
    such entry (earlier counts of the same rule are overwritten, not added);
    and [vulnerability_summary] holds the severity counts read from the
    metadata of the last package-scan entry, and is absent when there is
    none. *)
Theorem last_write_wins (R : Runtime) (fs : files) (p out : string)
    (t : list event) (s : summary) :
  reduce_results R fs p out = (t, inr s) ->
  exists es,
    combined_entries R fs p = inr es /\
    (forall k : json,
        kdict_lookup (findings_by_rule s) k =
        option_map (fun r => len0 (matches_of r))
          (last_with (fun r => same_key k (rulename_of r)) (dicts es))) /\
    match last_with is_package_scan (dicts es) with
    | Some r => exists md, severity_metadata r = Some md /\
                           vulnerability_summary s = Some (counts_record md)
    | None => vulnerability_summary s = None
    end.
Proof.
  intros H. apply reduce_results_inv in H. destruct H as (es & Hes & He).
  exists es. split; [assumption |]. split.
  - intros k. unfold kdict_lookup, same_key.
    destruct (py_hash_key k) as [h |].
    + rewrite (entries_effect_findings _ _ _ h He).
      destruct (last_with _ (dicts es)); reflexivity.
    + now rewrite last_with_never.
  - exact (entries_effect_vulnerability_summary _ _ _ He).
Qed.

(** ** Shape and order of [all_matches] *)

Lemma Forall2_right {A B : Type} (rel : A -> B -> Prop) (P : B -> Prop)
    (l : list A) (l' : list B) :
  (forall x y, rel x y -> P y) -> Forall2 rel l l' -> forall y, In y l' -> P y.
Proof.
  intros Hrel HF. induction HF as [| x y l l' Hxy HF IH]; intros z Hz.
  - destruct Hz.
  - destruct Hz as [<- | Hz]; [eapply Hrel; eassumption | now apply IH].
Qed.

Lemma finding_of_fields (rn mt : json) (m : pydict) :
  finding_of rn mt m -> field_is m "rule" rn /\ field_is m "type" (JStr "finding").
Proof. intros (d & ds & de & _ & _ & _ & ->). split; reflexivity. Qed.

Lemma vulnerability_of_fields (rn : json) (item : string * json) (m : pydict) :
  vulnerability_of rn item m ->
  field_is m "rule" rn /\ field_is m "type" (JStr "vulnerability").
Proof. intros (d & _ & ->). split; reflexivity. Qed.

Lemma entry_effect_group (s s' : summary) (r : pydict) :
  entry_effect s r s' ->
  exists g, all_matches s' = (all_matches s ++ g)%list /\ group_of r g.
Proof.
  intros H.
  destruct H as [n fbr vulns recs md Hp Hn Hf Hv HF Hmd | n fbr ms recs Hp Hn Hf Hi HF];
    exists recs; (split; [reflexivity |]); repeat split.
  - eapply (Forall2_right _ (fun m => field_is m "rule" (rulename_of r))); try eassumption.
    intros x y Hxy. now apply vulnerability_of_fields in Hxy.
  - right.
    eapply (Forall2_right _ (fun m => field_is m "type" (JStr "vulnerability")));
      try eassumption.
    intros x y Hxy. now apply vulnerability_of_fields in Hxy.
  - congruence.
  - intros _. eauto.
  - eapply (Forall2_right _ (fun m => field_is m "rule" (rulename_of r))); try eassumption.
    intros x y Hxy. now apply finding_of_fields in Hxy.
  - left.
    eapply (Forall2_right _ (fun m => field_is m "type" (JStr "finding")));
      try eassumption.
    intros x y Hxy. now apply finding_of_fields in Hxy.
  - intros _. eauto.
  - congruence.
Qed.

Lemma entries_effect_groups (s s' : summary) (l : list pydict) :
  entries_effect s l s' ->
  exists groups,
    all_matches s' = (all_matches s ++ List.concat groups)%list /\ Forall2 group_of l groups.
Proof.
  induction 1 as [s | s s1 s' r l He Hl (groups & Ha & HF)].
  - exists []. cbn. rewrite app_nil_r. split; [reflexivity | constructor].
  - apply entry_effect_group in He. destruct He as (g & Hg & Hgr).
    exists (g :: groups). split; [| constructor; assumption].
    rewrite Ha, Hg. cbn [List.concat]. now rewrite app_assoc.
Qed.

(** C10.  Whenever [reduce_results] returns a summary, [all_matches] is the
    concatenation, in document order, of one group of records per
    dict-shaped entry; every record of the group of an entry carries a
    [rule] field equal to the rule name of that entry and a [type] field equal
    to the string finding or to the string vulnerability; and the group of an
    entry that is not a package scan holds the records of its matches in the
    order of the matches. *)
Theorem all_matches_tagged_in_order (R : Runtime) (fs : files) (p out : string)
    (t : list event) (s : summary) :
  reduce_results R fs p out = (t, inr s) ->
  exists es groups,
    combined_entries R fs p = inr es /\
    all_matches s = List.concat groups /\
    Forall2 group_of (dicts es) groups.
Proof.
  intros H. apply reduce_results_inv in H. destruct H as (es & Hes & He).
  apply entries_effect_groups in He. destruct He as (groups & Ha & HF).
  exists es, groups. auto.
Qed.

(** ** Failure of the read (lines 25-30) *)

(** C3.  When [open] or [json.load] fails on the input file, the run logs
    the start line and then the error, raises that error, and has done nothing
    else: no directory was made and no file was opened or written. *)
Theorem read_failure_is_logged_and_raised (R : Runtime) (fs : files) (p out text : string) :
  json_load R fs p = inl text ->
  reduce_results R fs p out =
    ([ Log INFO ("Reading combined results from " ++ p);
       Log ERROR ("Error reading combined results: " ++ text) ],
     inl (EnvError text)) /\
  forall ev, In ev (fst (reduce_results R fs p out)) -> is_output ev = false.
Proof.
  intros H.
  assert (Hrun : reduce_results R fs p out =
                 ([ Log INFO ("Reading combined results from " ++ p);
                    Log ERROR ("Error reading combined results: " ++ text) ],
                  inl (EnvError text))).
  { unfold reduce_results. rewrite H. reflexivity. }
  split; [exact Hrun |].
  rewrite Hrun. cbn [fst]. intros ev [<- | [<- | []]]; reflexivity.
Qed.

(** ** The server name (lines 21-22) *)

Lemma py_split_head (c : ascii) (s : string) :
  exists h t,
    py_split c s = h :: t /\ contains_char c h = false /\
    ((t = [] /\ s = h) \/ (exists rest, s = h ++ String c rest)).
Proof.
  induction s as [| d s (h & t & Hs & Hh & Hrest)].
  - exists EmptyString, []. cbn. auto.
  - cbn [py_split]. destruct (is_char d c) eqn:Hd.
    + exists EmptyString, (py_split c s). split; [reflexivity |]. split; [reflexivity |].
      right. exists s. cbn. unfold is_char in Hd. apply Ascii.eqb_eq in Hd. now subst.
    + rewrite Hs. exists (String d h), t. split; [reflexivity |].
      split; [cbn; now rewrite Hd |].
      destruct Hrest as [[-> ->] | (rest & ->)]; [left; auto | right].
      exists rest. reflexivity.
Qed.

Lemma py_split_no_separator (c : ascii) (s : string) :
  contains_char c s = false -> py_split c s = [s].
Proof.
  induction s as [| d s IH]; cbn; [reflexivity |].
  intros H. apply orb_false_iff in H. destruct H as [Hd Hs].
  rewrite Hd, (IH Hs). reflexivity.
Qed.

(** C5, as the code has it.  The server name is the part of the base name of
    the path that precedes its first underscore: it holds no underscore and
    the base name is the server name followed by nothing or by an underscore
    and a remainder.  A base name without an underscore is the server name as
    it stands, extension included. *)
Theorem server_name_is_prefix_before_underscore (p : string) :
  contains_char "_"%char (server_name_of p) = false /\
  (basename p = server_name_of p \/
   exists rest, basename p = server_name_of p ++ String "_"%char rest) /\
  (contains_char "_"%char (basename p) = false -> server_name_of p = basename p).
Proof.
  unfold server_name_of.
  destruct (py_split_head "_"%char (basename p)) as (h & t & Hs & Hh & Hrest).
  rewrite Hs. cbn [hd]. split; [assumption |]. split.
  - destruct Hrest as [[_ ->] | (rest & ->)]; [left; reflexivity | right; eauto].
  - intros Hn. rewrite (py_split_no_separator _ _ Hn) in Hs. now inversion Hs.
Qed.

(** C5 as stated fails: a file name without an underscore keeps its
    extension. *)
Lemma server_name_keeps_extension :
  server_name_of "myserver.json" = "myserver.json" /\
  server_name_of "myserver.json" <> "myserver".
Proof. split; [reflexivity | discriminate]. Qed.

Example server_name_of_stamped_file :
  server_name_of "./results/combined/myserver_20240101.json" = "myserver".
Proof. reflexivity. Qed.

(** ** The shape of the top-level value (lines 40-44) *)

Lemma reduce_results_loop (R : Runtime) (fs : files) (p out : string)
    (t : list event) (s : summary) :
  reduce_results R fs p out = (t, inr s) ->
  exists es,
    combined_entries R fs p = inr es /\
    for_each (process_result R) empty_summary es =
      (map (skip_warning R) (non_dicts es), inr s).
Proof.
  intros H. apply reduce_results_inv in H. destruct H as (es & Hes & He).
  exists es. split; [assumption | now apply loop_ok].
Qed.

Lemma same_entries_same_summary (R : Runtime) (fs1 fs2 : files) (p1 p2 out1 out2 : string)
    (es : list json) (t1 t2 : list event) (s1 s2 : summary) :
  combined_entries R fs1 p1 = inr es ->
  combined_entries R fs2 p2 = inr es ->
  reduce_results R fs1 p1 out1 = (t1, inr s1) ->
  reduce_results R fs2 p2 out2 = (t2, inr s2) ->
  s1 = s2.
Proof.
  intros H1 H2 Hr1 Hr2.
  apply reduce_results_loop in Hr1. destruct Hr1 as (es1 & He1 & Hl1).
  apply reduce_results_loop in Hr2. destruct Hr2 as (es2 & He2 & Hl2).
  rewrite H1 in He1. rewrite H2 in He2. inversion He1; inversion He2; subst.
  rewrite Hl1 in Hl2. now inversion Hl2.
Qed.

(** C6.  A file whose top-level value is the object [o] and a file whose
    top-level value is the one-element array of [o] are reduced alike: at the
    same path and output directory the two runs are the same run (same
    events, same exception or same summary), and at any paths and output
    directories the summaries they return are equal. *)
Theorem single_object_same_as_singleton (R : Runtime) (fs1 fs2 : files)
    (p1 p2 out1 out2 : string) (o : pydict) :
  json_load R fs1 p1 = inr (JDict o) ->
  json_load R fs2 p2 = inr (JList [JDict o]) ->
  (p1 = p2 -> out1 = out2 ->
   reduce_results R fs1 p1 out1 = reduce_results R fs2 p2 out2) /\
  (forall t1 t2 s1 s2,
      reduce_results R fs1 p1 out1 = (t1, inr s1) ->
      reduce_results R fs2 p2 out2 = (t2, inr s2) ->
      s1 = s2).
Proof.
  intros H1 H2. split.
  - intros <- <-. unfold reduce_results. rewrite H1, H2. reflexivity.
  - intros t1 t2 s1 s2.
    apply (same_entries_same_summary R fs1 fs2 p1 p2 out1 out2 [JDict o]);
      unfold combined_entries; [rewrite H1 | rewrite H2]; reflexivity.
Qed.

(** C7, as the code has it.  Let the top-level value of a file be a string
    that decodes to [d].  The entries processed are those of [d]: the string
    is decoded once and [d] is not decoded again, whatever it is.  And when
    [d] is not itself a string, the file is reduced like a file whose
    top-level value is [d]: at the same path and output directory the two
    runs are the same run, and at any paths and output directories the
    summaries they return are equal. *)
Theorem double_encoded_same_as_plain (R : Runtime) (fs1 fs2 : files)
    (p1 p2 out1 out2 text : string) (d : json) :
  json_load R fs1 p1 = inr (JStr text) ->
  json_loads R text = inr d ->
  combined_entries R fs1 p1 = inr (as_list d) /\
  (is_str d = false ->
   json_load R fs2 p2 = inr d ->
   (p1 = p2 -> out1 = out2 ->
    reduce_results R fs1 p1 out1 = reduce_results R fs2 p2 out2) /\
   (forall t1 t2 s1 s2,
       reduce_results R fs1 p1 out1 = (t1, inr s1) ->
       reduce_results R fs2 p2 out2 = (t2, inr s2) ->
       s1 = s2)).
Proof.
  intros H1 Hd.
  assert (He1 : combined_entries R fs1 p1 = inr (as_list d)).
  { unfold combined_entries. rewrite H1, Hd. reflexivity. }
  split; [exact He1 |]. intros Hs H2.
  assert (He2 : combined_entries R fs2 p2 = inr (as_list d)).
  { unfold combined_entries. rewrite H2. destruct d; try reflexivity; discriminate. }
  split.
  - intros <- <-. unfold reduce_results. rewrite H1, H2.
    cbn [decode_again]. rewrite Hd.
    destruct d; try reflexivity; discriminate.
  - intros t1 t2 s1 s2.
    exact (same_entries_same_summary R fs1 fs2 p1 p2 out1 out2 _ t1 t2 s1 s2 He1 He2).
Qed.

(** ** Records whose paragraph can be written *)

Lemma bind_run {A B : Type} (m : M A) (k : A -> M B) (t1 t2 : list event) (a : A)
    (r : result B) :
  m = (t1, inr a) -> k a = (t2, r) -> bind m k = ((t1 ++ t2)%list, r).
Proof. intros -> Hk. unfold bind. rewrite Hk. reflexivity. Qed.

Lemma write_ok (R : Runtime) (f chunk : string) :
  writable R -> write R f chunk = ([FWrite f chunk], inr tt).
Proof. intros Hw. unfold write. rewrite Hw. reflexivity. Qed.

(** One statement of a straight-line block: a write, or a lookup whose
    value is known. *)
Ltac run_statement Hw :=
  eapply bind_run; [first [apply (write_ok _ _ _ Hw) | reflexivity] | cbv beta].

Ltac run_block Hw :=
  repeat run_statement Hw; first [apply (write_ok _ _ _ Hw) | reflexivity].

Lemma finding_reportable (rn mt : json) (m : pydict) :
  finding_of rn mt m -> reportable m.
Proof.
  intros (d & ds & de & _ & _ & _ & ->) R f Hw.
  unfold report_match, finding_record.
  destruct (py_truthy (dict_get de "lines" (JStr EmptyString))) eqn:Ts.
  - eexists. do 9 run_statement Hw. rewrite Ts. run_block Hw.
  - eexists. do 9 run_statement Hw. rewrite Ts. reflexivity.
Qed.

Lemma guarded_join_ok (R : Runtime) (f label : string) (m : pydict) (k : string)
    (v : json) :
  writable R ->
  dict_getitem m k = inr v ->
  negb (py_truthy v) || joinable v = true ->
  exists t,
    (if py_truthy v then
       x <- lift (dict_getitem m k) ;;
       joined <- lift (py_join ", " x) ;;
       write R f (label ++ joined ++ nl)
     else ret tt) = (t, inr tt).
Proof.
  intros Hw Hk Hj. destruct (py_truthy v).
  - cbn in Hj. unfold joinable in Hj.
    destruct (py_join ", " v) as [| j] eqn:Ej; [discriminate |].
    eexists. rewrite Hk. run_statement Hw. rewrite Ej. run_block Hw.
  - eexists. reflexivity.
Qed.

Lemma vulnerability_reportable (rn : json) (item : string * json) (m : pydict) :
  well_typed_vulnerability (snd item) = true ->
  vulnerability_of rn item m -> reportable m.
Proof.
  intros Hwt (d & Hd & ->) R f Hw. rewrite Hd in Hwt.
  cbn [well_typed_vulnerability] in Hwt.
  apply andb_prop in Hwt. destruct Hwt as [Hwt Hn].
  apply andb_prop in Hwt. destruct Hwt as [Hv He].
  unfold joinable in Hn.
  destruct (py_join ", " (dict_get d "nodes" (JList []))) as [| jn] eqn:En;
    [discriminate |].
  destruct (guarded_join_ok R f "Via: " (vulnerability_record rn (fst item) d) "via"
              _ Hw eq_refl Hv) as (tv & Htv).
  destruct (guarded_join_ok R f "Effects: " (vulnerability_record rn (fst item) d)
              "effects" _ Hw eq_refl He) as (te & Hte).
  unfold report_match. eexists.
  do 10 run_statement Hw.
  eapply bind_run; [exact Htv | cbv beta].
  run_statement Hw.
  eapply bind_run; [exact Hte | cbv beta].
  do 3 run_statement Hw. rewrite En.
  run_block Hw.
Qed.

Lemma well_typed_matches_records (rn : json) (ms : list json) :
  forallb well_typed_match ms = true ->
  exists recs, Forall2 (finding_of rn) ms recs /\ Forall reportable recs.
Proof.
  induction ms as [| mt ms IH]; cbn [forallb]; intros H.
  - exists []. split; constructor.
  - apply andb_prop in H. destruct H as [Hm Hms].
    destruct (IH Hms) as (recs & HF & HR).
    destruct mt; try discriminate. cbn [well_typed_match] in Hm.
    apply andb_prop in Hm. destruct Hm as [Hs He].
    destruct (dict_get d "start" (JDict [])) as [| | | | | | ds] eqn:Es; try discriminate.
    destruct (dict_get d "extra" (JDict [])) as [| | | | | | de] eqn:Ee; try discriminate.
    assert (Hof : finding_of rn (JDict d) (finding_record rn d ds de)).
    { exists d, ds, de. auto. }
    exists (finding_record rn d ds de :: recs).
    split; constructor; try assumption.
    eapply finding_reportable; eassumption.
Qed.

Lemma well_typed_vulnerabilities_records (rn : json) (vulns : pydict) :
  forallb (fun item => well_typed_vulnerability (snd item)) vulns = true ->
  exists recs, Forall2 (vulnerability_of rn) vulns recs /\ Forall reportable recs.
Proof.
  induction vulns as [| item vulns IH]; cbn [forallb]; intros H.
  - exists []. split; constructor.
  - apply andb_prop in H. destruct H as [Hv Hvs].
    destruct (IH Hvs) as (recs & HF & HR).
    destruct (snd item) as [| | | | | | d] eqn:Ei; try discriminate.
    assert (Hof : vulnerability_of rn item (vulnerability_record rn (fst item) d)).
    { exists d. auto. }
    exists (vulnerability_record rn (fst item) d :: recs).
    split; constructor; try assumption.
    eapply vulnerability_reportable; [| eassumption]. now rewrite Ei.
Qed.

Lemma kdict_setitem_str (d : kdict) (k : json) (n : nat) :
  (exists h, py_hash_key k = Some h) -> exists fbr, dict_setitem d k n = inr fbr.
Proof. intros (h & Hh). unfold dict_setitem. rewrite Hh. eauto. Qed.

Lemma report_loop_ok (R : Runtime) (f : string) (l : list pydict) :
  writable R ->
  Forall reportable l -> exists t, for_each (report_match R f) tt l = (t, inr tt).
Proof.
  intros Hw. induction 1 as [| m l Hm Hl (t2 & IH)].
  - exists []. reflexivity.
  - destruct (Hm R f Hw) as (t1 & H1). exists (t1 ++ t2)%list.
    cbn [for_each]. now apply bind_run with (a := tt).
Qed.

Lemma counts_loop_ok (R : Runtime) (f : string) (l : kdict) :
  writable R ->
  exists t,
    for_each
      (fun (_ : unit) (item : json * nat) =>
         write R f ("- " ++ py_str R (fst item) ++ ": " ++ str_of_nat R (snd item)
                  ++ " finding(s)" ++ nl))
      tt l = (t, inr tt).
Proof.
  intros Hw. induction l as [| item l (t2 & IH)].
  - exists []. reflexivity.
  - eexists. cbn [for_each].
    eapply bind_run with (a := tt); [apply (write_ok _ _ _ Hw) | exact IH].
Qed.

Lemma write_report_ok (R : Runtime) (f : string) (s : summary) :
  writable R ->
  Forall reportable (all_matches s) -> exists t, write_report R f s = (t, inr tt).
Proof.
  intros Hw HR. destruct (report_loop_ok R f _ Hw HR) as (tr & Hr).
  destruct (counts_loop_ok R f (findings_by_rule s) Hw) as (tc & Hc).
  eexists. unfold write_report.
  do 3 run_statement Hw.
  eapply bind_run with (a := tt); [exact Hc | cbv beta].
  run_statement Hw. exact Hr.
Qed.

Lemma save_outputs_ok (R : Runtime) (sn ts out : string) (s : summary) :
  os_mkdir R out = None ->
  (forall f, os_open_w R f = None) ->
  writable R ->
  Forall reportable (all_matches s) ->
  exists t, save_outputs R sn ts out s = (t, inr s).
Proof.
  intros Hmk Hopen Hw HR.
  destruct (write_report_ok R
              (path_join R out (sn ++ "_" ++ ts ++ "_summary.txt")) s Hw HR) as (tw & Htw).
  eexists. unfold save_outputs, open_w. rewrite Hmk, !Hopen.
  do 4 run_statement Hw.
  eapply bind_run with (a := tt); [exact Htw | cbv beta].
  run_block Hw.
Qed.

Lemma dicts_of_dicts (l : list pydict) : dicts (map JDict l) = l.
Proof. induction l as [| r l IH]; cbn; [reflexivity | now rewrite IH]. Qed.

Lemma non_dicts_of_dicts (l : list pydict) : non_dicts (map JDict l) = [].
Proof. induction l as [| r l IH]; cbn; [reflexivity | exact IH]. Qed.

Lemma combined_entries_inv (R : Runtime) (fs : files) (p : string) (es : list json) :
  combined_entries R fs p = inr es ->
  exists v v',
    json_load R fs p = inr v /\ decode_again R v = ([], inr v') /\ as_list v' = es.
Proof.
  unfold combined_entries. destruct (json_load R fs p) as [| v]; [discriminate |].
  intros H. exists v.
  destruct v; try (eexists; split; [reflexivity |]; split; [reflexivity |];
                   now inversion H).
  cbn [decode_again]. destruct (json_loads R s) as [| v']; [discriminate |].
  exists v'. split; [reflexivity |]. split; [reflexivity | now inversion H].
Qed.

(** A run is its start line, the events of the loop and the events of the
    output. *)
Lemma run_of_entries (R : Runtime) (fs : files) (p out : string) (es : list json)
    (tl t_out : list event) (s : summary) (r : result summary) :
  combined_entries R fs p = inr es ->
  for_each (process_result R) empty_summary es = (tl, inr s) ->
  save_outputs R (server_name_of p) (now_stamp R) out s = (t_out, r) ->
  reduce_results R fs p out =
    ((Log INFO ("Reading combined results from " ++ p) :: tl ++ t_out)%list, r).
Proof.
  intros Hes Hloop Hsave.
  apply combined_entries_inv in Hes. destruct Hes as (v & v' & Hv & Hd & <-).
  unfold reduce_results. rewrite Hv.
  change (Log INFO ("Reading combined results from " ++ p) :: tl ++ t_out)%list
    with ([Log INFO ("Reading combined results from " ++ p)]
            ++ ([] ++ (tl ++ t_out)))%list.
  eapply bind_run with (a := tt); [reflexivity |].
  eapply bind_run; [exact Hd |].
  eapply bind_run; [exact Hloop | exact Hsave].
Qed.

(** ** A package scan with one vulnerability *)

(** C9.  For the one-element input whose entry is the package scan of
    lodash above, a summary the run returns is the summary with one
    vulnerability record, for lodash, in [all_matches], the six severity
    counts with high and total at one and the others at zero,
    [findings_by_rule] mapping package_scan to zero, and [total_findings]
    zero; and the run does return it when the output directory and files can
    be made and written. *)
Theorem package_scan_scenario (R : Runtime) (fs : files) (p out : string) :
  json_load R fs p = inr (JList [lodash_scan]) ->
  (forall t s, reduce_results R fs p out = (t, inr s) -> s = lodash_summary) /\
  (os_mkdir R out = None ->
   (forall f, os_open_w R f = None) ->
   writable R ->
   exists t, reduce_results R fs p out = (t, inr lodash_summary)).
Proof.
  intros Hload.
  assert (Hes : combined_entries R fs p = inr [lodash_scan]).
  { unfold combined_entries. rewrite Hload. reflexivity. }
  split.
  - intros t s Hrun. apply reduce_results_loop in Hrun.
    destruct Hrun as (es & Hes' & Hloop). rewrite Hes in Hes'.
    inversion Hes'; subst es. cbv in Hloop. now inversion Hloop.
  - intros Hmk Hopen Hw.
    assert (Hloop : for_each (process_result R) empty_summary [lodash_scan] =
                    ([], inr lodash_summary)) by reflexivity.
    assert (HR : Forall reportable (all_matches lodash_summary)).
    { constructor; [| constructor].
      apply (vulnerability_reportable (JStr "package_scan")
               ("lodash",
                JDict [ ("severity", JStr "high");
                        ("isDirect", JBool true);
                        ("fixAvailable", JBool true) ]));
        [reflexivity | eexists; split; reflexivity]. }
    destruct (save_outputs_ok R (server_name_of p) (now_stamp R) out _ Hmk Hopen Hw HR)
      as (t_out & Hsave).
    eexists. exact (run_of_entries R fs p out _ _ _ _ _ Hes Hloop Hsave).
Qed.

(** * Concrete runs *)

(** The run on the four-element document returns [Sample.mixed_summary]. *)
Example mixed_run_returns :
  snd (reduce_results Sample.runtime mixed_files Sample.path Sample.out) =
  inr Sample.mixed_summary.
Proof. vm_compute. reflexivity. Qed.

Lemma total_findings_of_mixed_run :
  exists es,
    combined_entries Sample.runtime mixed_files Sample.path = inr es /\
    Forall (fun r => has_len (matches_of r)) (dicts es) /\
    total_findings Sample.mixed_summary =
      list_sum (map (fun r => len0 (matches_of r)) (dicts es)).
Proof.
  apply (total_findings_sums_match_counts Sample.runtime mixed_files Sample.path Sample.out
           (fst (reduce_results Sample.runtime mixed_files Sample.path Sample.out))).
  vm_compute. reflexivity.
Defined.

Lemma all_matches_length_of_mixed_run :
  exists es,
    combined_entries Sample.runtime mixed_files Sample.path = inr es /\
    List.length (all_matches Sample.mixed_summary) =
      list_sum (map (fun r => len0 (matches_of r))
                  (filter (fun r => negb (is_package_scan r)) (dicts es)))
      + list_sum (map (fun r => len0 (vulnerabilities_of r))
                    (filter is_package_scan (dicts es))).
Proof.
  apply (all_matches_length Sample.runtime mixed_files Sample.path Sample.out
           (fst (reduce_results Sample.runtime mixed_files Sample.path Sample.out))).
  vm_compute. reflexivity.
Defined.

Lemma last_write_wins_in_mixed_run :
  exists es,
    combined_entries Sample.runtime mixed_files Sample.path = inr es /\
    (forall k : json,
        kdict_lookup (findings_by_rule Sample.mixed_summary) k =
        option_map (fun r => len0 (matches_of r))
          (last_with (fun r => same_key k (rulename_of r)) (dicts es))) /\
    match last_with is_package_scan (dicts es) with
    | Some r => exists md, severity_metadata r = Some md /\
                           vulnerability_summary Sample.mixed_summary =
                           Some (counts_record md)
    | None => vulnerability_summary Sample.mixed_summary = None
    end.
Proof.
  apply (last_write_wins Sample.runtime mixed_files Sample.path Sample.out
           (fst (reduce_results Sample.runtime mixed_files Sample.path Sample.out))).
  vm_compute. reflexivity.
Defined.

Lemma all_matches_of_mixed_run_in_order :
  exists es groups,
    combined_entries Sample.runtime mixed_files Sample.path = inr es /\
    all_matches Sample.mixed_summary = List.concat groups /\
    Forall2 group_of (dicts es) groups.
Proof.
  apply (all_matches_tagged_in_order Sample.runtime mixed_files Sample.path Sample.out
           (fst (reduce_results Sample.runtime mixed_files Sample.path Sample.out))).
  vm_compute. reflexivity.
Defined.

(** The first rule is counted once in [total_findings] although its last
    entry has no match. *)
Example mixed_run_counts :
  total_findings Sample.mixed_summary = 1 /\
  kdict_lookup (findings_by_rule Sample.mixed_summary) (JStr "eqeq") = Some 0.
Proof. split; reflexivity. Qed.

Lemma missing_file_is_logged_and_raised :
  json_load Sample.runtime mixed_files "missing.json" = inl missing_text /\
  reduce_results Sample.runtime mixed_files "missing.json" Sample.out =
    ([ Log INFO "Reading combined results from missing.json";
       Log ERROR ("Error reading combined results: " ++ missing_text) ],
     inl (EnvError missing_text)).
Proof.
  split; [reflexivity |].
  exact (proj1 (read_failure_is_logged_and_raised Sample.runtime mixed_files
                  "missing.json" Sample.out missing_text eq_refl)).
Defined.

(** C4 as stated fails: an object whose [matches] is a number is not
    skipped; [len] raises and the run ends with that exception. *)
Lemma mistyped_matches_raises :
  json_load Sample.runtime (Sample.file_with Sample.path Sample.mistyped_text) Sample.path
    = inr (JList [ JDict [ ("matches", JInt 5) ] ]) /\
  reduce_results Sample.runtime (Sample.file_with Sample.path Sample.mistyped_text)
    Sample.path Sample.out =
    ([ Log INFO ("Reading combined results from " ++ Sample.path) ], inl TypeError).
Proof. split; reflexivity. Qed.

Lemma object_and_singleton_runs_agree :
  reduce_results Sample.runtime (Sample.file_with Sample.path Sample.eqeq_text)
    Sample.path Sample.out =
  reduce_results Sample.runtime
    (Sample.file_with Sample.path ("[" ++ Sample.eqeq_text ++ "]")) Sample.path Sample.out.
Proof.
  exact (proj1 (single_object_same_as_singleton Sample.runtime
                  (Sample.file_with Sample.path Sample.eqeq_text)
                  (Sample.file_with Sample.path ("[" ++ Sample.eqeq_text ++ "]"))
                  Sample.path Sample.path Sample.out Sample.out _ eq_refl eq_refl)
               eq_refl eq_refl).
Defined.

Lemma encoded_empty_array_run :
  combined_entries Sample.runtime
    (Sample.file_with Sample.path Sample.array_in_string) Sample.path = inr [] /\
  reduce_results Sample.runtime
    (Sample.file_with Sample.path Sample.array_in_string) Sample.path Sample.out =
  reduce_results Sample.runtime (Sample.file_with Sample.path "[]") Sample.path Sample.out.
Proof.
  pose proof (double_encoded_same_as_plain Sample.runtime
                (Sample.file_with Sample.path Sample.array_in_string)
                (Sample.file_with Sample.path "[]")
                Sample.path Sample.path Sample.out Sample.out "[]" (JList [])
                eq_refl eq_refl) as [He Hrun].
  split; [exact He |].
  exact (proj1 (Hrun eq_refl eq_refl) eq_refl eq_refl).
Defined.

(** C7 as stated fails when the document is itself a string.  The document
    is the string holding the text of the empty object: reduced as it stands
    it is decoded and yields the entry of the empty object; held in a string
    once more, the outer string is decoded and the document, a string, is
    skipped. *)
Lemma string_document_differs :
  json_load Sample.runtime
    (Sample.file_with Sample.path Sample.object_in_string) Sample.path
    = inr (JStr "{}") /\
  json_load Sample.runtime
    (Sample.file_with Sample.path Sample.object_in_string_in_string) Sample.path
    = inr (JStr Sample.object_in_string) /\
  json_loads Sample.runtime Sample.object_in_string = inr (JStr "{}") /\
  snd (reduce_results Sample.runtime
         (Sample.file_with Sample.path Sample.object_in_string) Sample.path Sample.out)
    = inr (mk_summary 0 [ (JStr "unknown", 0) ] [] None) /\
  snd (reduce_results Sample.runtime
         (Sample.file_with Sample.path Sample.object_in_string_in_string)
         Sample.path Sample.out)
    = inr empty_summary.
Proof. repeat split; vm_compute; reflexivity. Qed.

Lemma lodash_run_returns :
  exists t,
    reduce_results Sample.runtime
      (Sample.file_with Sample.path ("[" ++ Sample.lodash_text ++ "]"))
      Sample.path Sample.out = (t, inr lodash_summary).
Proof.
  exact (proj2 (package_scan_scenario Sample.runtime
                  (Sample.file_with Sample.path ("[" ++ Sample.lodash_text ++ "]"))
                  Sample.path Sample.out eq_refl)
               eq_refl (fun _ => eq_refl) (fun _ _ => eq_refl)).
Defined.

(** Scenario A: one finding. *)
Example one_finding_run :
  snd (reduce_results Sample.runtime
         (Sample.file_with Sample.path ("[" ++ Sample.eqeq_text ++ "]"))
         Sample.path Sample.out)
  = inr {| total_findings := 1;
           findings_by_rule := [ (JStr "eqeq", 1) ];
           all_matches :=
             [ [ ("rule", JStr "eqeq");
                 ("path", JStr "a.py");
                 ("line", JInt 5);
                 ("snippet", JStr "x==y");
                 ("message", JStr "use is");
                 ("type", JStr "finding") ] ];
           vulnerability_summary := None |}.
Proof. vm_compute. reflexivity. Qed.

(** Scenario C: the empty array held in a string. *)
Example encoded_empty_array_summary :
  snd (reduce_results Sample.runtime
         (Sample.file_with Sample.path Sample.array_in_string) Sample.path Sample.out)
  = inr empty_summary.
Proof. vm_compute. reflexivity. Qed.

(** [True], [1] and [1.0] are one dictionary key; the string is another. *)
Example numeric_keys_coincide :
  same_key (JBool true) (JInt 1) = true /\
  same_key (JInt 1) (JFloat (S754_finite false 4503599627370496 (-52))) = true /\
  same_key (JInt 1) (JStr "1") = false.
Proof. repeat split; vm_compute; reflexivity. Qed.

(** * Further properties *)

(** ** Runs read in full *)

Lemma reduce_results_run (R : Runtime) (fs : files) (p out : string)
    (t : list event) (s : summary) :
  reduce_results R fs p out = (t, inr s) ->
  exists es t_out,
    combined_entries R fs p = inr es /\
    for_each (process_result R) empty_summary es =
      (map (skip_warning R) (non_dicts es), inr s) /\
    save_outputs R (server_name_of p) (now_stamp R) out s = (t_out, inr s) /\
    t = (start_line p :: map (skip_warning R) (non_dicts es) ++ t_out)%list.
Proof.
  intros H. destruct (reduce_results_loop R fs p out t s H) as (es & Hes & Hloop).
  destruct (save_outputs R (server_name_of p) (now_stamp R) out s) as [t_out r] eqn:Hs.
  pose proof (run_of_entries R fs p out es _ t_out s r Hes Hloop Hs) as Hrun.
  rewrite H in Hrun. inversion Hrun; subst.
  exists es, t_out. auto.
Qed.

Lemma write_inr (R : Runtime) (f chunk : string) (t : list event) (a : unit) :
  write R f chunk = (t, inr a) -> os_write R f chunk = None /\ t = [FWrite f chunk].
Proof.
  unfold write. destruct (os_write R f chunk); [discriminate |].
  intros H. inversion H. auto.
Qed.

Lemma open_w_inr (R : Runtime) (f : string) (t : list event) (a : unit) :
  open_w R f = (t, inr a) -> os_open_w R f = None /\ t = [OpenW f].
Proof.
  unfold open_w. destruct (os_open_w R f); [discriminate |].
  intros H. inversion H. auto.
Qed.

Lemma save_outputs_inv (R : Runtime) (sn ts out : string) (s s' : summary)
    (t : list event) :
  save_outputs R sn ts out s = (t, inr s') ->
  let jp := path_join R out (sn ++ "_" ++ ts ++ "_reduced.json") in
  let tp := path_join R out (sn ++ "_" ++ ts ++ "_summary.txt") in
  exists t_rep,
    write_report R tp s = (t_rep, inr tt) /\
    t = ([Mkdir out; OpenW jp; FWrite jp (json_dumps R s); OpenW tp] ++ t_rep
           ++ [Log INFO ("Reduced results saved to " ++ path_str R out)])%list.
Proof.
  intros H. cbv zeta. unfold save_outputs in H.
  apply bind_inr in H. destruct H as (t1 & [] & t1' & Hmk & H & ->).
  destruct (os_mkdir R out); [discriminate |]. inversion Hmk; subst t1.
  apply bind_inr in H. destruct H as (t2 & [] & t2' & Hoj & H & ->).
  apply open_w_inr in Hoj. destruct Hoj as [_ ->].
  apply bind_inr in H. destruct H as (t3 & [] & t3' & Hwj & H & ->).
  apply write_inr in Hwj. destruct Hwj as [_ ->].
  apply bind_inr in H. destruct H as (t4 & [] & t4' & Hot & H & ->).
  apply open_w_inr in Hot. destruct Hot as [_ ->].
  apply bind_inr in H. destruct H as (t5 & [] & t5' & Hrep & H & ->).
  apply bind_inr in H. destruct H as (t6 & [] & t6' & Hlog & H & ->).
  inversion Hlog; subst t6. inversion H; subst.
  exists t5. split; [exact Hrep |]. cbn [app]. rewrite ?app_nil_r. reflexivity.
Qed.

(** ** Events of a block, whatever its outcome *)

Lemma fst_bind_Forall {A B : Type} (P : event -> Prop) (m : M A) (k : A -> M B) :
  Forall P (fst m) -> (forall a, Forall P (fst (k a))) -> Forall P (fst (bind m k)).
Proof.
  intros Hm Hk. unfold bind. destruct m as [t [e | a]]; [exact Hm |].
  specialize (Hk a). destruct (k a) as [t' r]. cbn in *. apply Forall_app. auto.
Qed.

Lemma fst_for_each_Forall {A S : Type} (P : event -> Prop) (body : S -> A -> M S) :
  (forall s x, Forall P (fst (body s x))) ->
  forall l s, Forall P (fst (for_each body s l)).
Proof.
  intros Hb. induction l as [| x l IH]; intros s; cbn [for_each].
  - constructor.
  - apply fst_bind_Forall; [apply Hb | intros a; apply IH].
Qed.

Lemma fst_write_Forall (P : event -> Prop) (R : Runtime) (f chunk : string) :
  P (FWrite f chunk) -> Forall P (fst (write R f chunk)).
Proof.
  intros HP. unfold write. destruct (os_write R f chunk); cbn; auto.
Qed.

(** Splits a block into its statements; what is left are the writes. *)
Ltac events_of_block :=
  repeat first
    [ apply fst_bind_Forall; [| intros ]
    | apply fst_for_each_Forall; intros
    | match goal with
      | |- Forall _ (fst (if ?b then _ else _)) => destruct b
      | |- Forall _ (fst (lift _)) => constructor
      | |- Forall _ (fst (ret _)) => constructor
      end ].

Lemma report_match_events (P : event -> Prop) (R : Runtime) (f : string) (m : pydict) :
  (forall chunk, P (FWrite f chunk)) -> Forall P (fst (report_match R f tt m)).
Proof.
  intros HP. unfold report_match. events_of_block; apply fst_write_Forall, HP.
Qed.

Lemma write_report_events (P : event -> Prop) (R : Runtime) (f : string) (s : summary) :
  (forall chunk, P (FWrite f chunk)) -> Forall P (fst (write_report R f s)).
Proof.
  intros HP. unfold write_report.
  events_of_block;
    first [apply fst_write_Forall, HP | apply report_match_events, HP].
Qed.

Lemma process_result_events (R : Runtime) (s : summary) (x : json) :
  Forall (fun ev => ev = skip_warning R x) (fst (process_result R s x)).
Proof.
  destruct x; try (repeat constructor).
  unfold process_result, vulnerability_match, finding_match, severity_counts, getM.
  events_of_block.
Qed.

Lemma loop_events (R : Runtime) (es : list json) (s : summary) :
  Forall (fun ev => exists x, ev = skip_warning R x)
    (fst (for_each (process_result R) s es)).
Proof.
  apply fst_for_each_Forall. intros s' x.
  eapply Forall_impl; [| apply process_result_events]. cbn. eauto.
Qed.

(** ** The events of a run that returns *)

(** X1.  A run that returns a summary has logged the start line and one
    warning for each entry that is not an object, then made the output
    directory, opened and written the JSON file, opened the report and
    written to it, and logged the completion line, in this order and nothing
    else. *)
Theorem returned_run_events (R : Runtime) (fs : files) (p out : string)
    (t : list event) (s : summary) :
  reduce_results R fs p out = (t, inr s) ->
  exists es t_rep,
    combined_entries R fs p = inr es /\
    t = (start_line p :: map (skip_warning R) (non_dicts es)
           ++ [ Mkdir out;
                OpenW (json_path_of R p out);
                FWrite (json_path_of R p out) (json_dumps R s);
                OpenW (txt_path_of R p out) ]
           ++ t_rep ++ [done_line R out])%list /\
    Forall (fun ev => exists chunk, ev = FWrite (txt_path_of R p out) chunk) t_rep.
Proof.
  intros H. apply reduce_results_run in H.
  destruct H as (es & t_out & Hes & _ & Hsave & ->).
  pose proof (save_outputs_inv _ _ _ _ _ _ _ Hsave) as Hinv. cbv zeta in Hinv.
  destruct Hinv as (t_rep & Hrep & ->).
  exists es, t_rep. split; [exact Hes |]. split; [reflexivity |].
  pose proof (write_report_events
                (fun ev => exists chunk, ev = FWrite (txt_path_of R p out) chunk)
                R (txt_path_of R p out) s) as Hev.
  unfold txt_path_of in *. rewrite Hrep in Hev. apply Hev. eauto.
Qed.

Lemma returned_run_events_of_mixed_run :
  exists es t_rep,
    combined_entries Sample.runtime mixed_files Sample.path = inr es /\
    fst (reduce_results Sample.runtime mixed_files Sample.path Sample.out) =
      (start_line Sample.path :: map (skip_warning Sample.runtime) (non_dicts es)
         ++ [ Mkdir Sample.out;
              OpenW (json_path_of Sample.runtime Sample.path Sample.out);
              FWrite (json_path_of Sample.runtime Sample.path Sample.out)
                (json_dumps Sample.runtime Sample.mixed_summary);
              OpenW (txt_path_of Sample.runtime Sample.path Sample.out) ]
         ++ t_rep ++ [done_line Sample.runtime Sample.out])%list /\
    Forall (fun ev => exists chunk,
                ev = FWrite (txt_path_of Sample.runtime Sample.path Sample.out) chunk)
      t_rep.
Proof.
  apply (returned_run_events Sample.runtime mixed_files Sample.path Sample.out
           (fst (reduce_results Sample.runtime mixed_files Sample.path Sample.out))
           Sample.mixed_summary).
  vm_compute. reflexivity.
Defined.

(** X2.  The entry point, when it returns, has made the directory
    ./results/reduced and has opened two files and no other: the JSON
    summary and the text report, both named after the server name combined
    and the time stamp. *)
Theorem main_output_files (R : Runtime) (fs : files) (t : list event) (s : summary) :
  main R fs = (t, inr s) ->
  In (Mkdir "./results/reduced") t /\
  In (OpenW (main_file R "_reduced.json")) t /\
  In (OpenW (main_file R "_summary.txt")) t /\
  forall f, In (OpenW f) t ->
            f = main_file R "_reduced.json" \/ f = main_file R "_summary.txt".
Proof.
  unfold main. intros H. apply reduce_results_run in H.
  destruct H as (es & t_out & _ & _ & Hsave & ->).
  pose proof (save_outputs_inv _ _ _ _ _ _ _ Hsave) as Hinv. cbv zeta in Hinv.
  destruct Hinv as (t_rep & Hrep & ->).
  change (server_name_of "./results/combined/combined_results.json") with "combined"
    in *.
  change (path_join R "./results/reduced" ("combined" ++ "_" ++ now_stamp R ++ "_reduced.json"))
    with (main_file R "_reduced.json") in *.
  change (path_join R "./results/reduced" ("combined" ++ "_" ++ now_stamp R ++ "_summary.txt"))
    with (main_file R "_summary.txt") in *.
  pose proof (write_report_events
                (fun ev => exists chunk, ev = FWrite (main_file R "_summary.txt") chunk)
                R (main_file R "_summary.txt") s) as Hev.
  rewrite Hrep in Hev. cbn [fst] in Hev.
  assert (Hrep_writes :
            Forall (fun ev => exists chunk, ev = FWrite (main_file R "_summary.txt") chunk)
              t_rep)
    by (apply Hev; eauto).
  repeat split.
  - right. apply in_or_app. right. left. reflexivity.
  - right. apply in_or_app. right. right. left. reflexivity.
  - right. apply in_or_app. right. do 3 right. left. reflexivity.
  - intros f [Hf | Hf]; [discriminate |].
    apply in_app_or in Hf. destruct Hf as [Hf | Hf].
    + apply in_map_iff in Hf. destruct Hf as (x & Hx & _). discriminate.
    + destruct Hf as [Hf | [Hf | [Hf | [Hf | Hf]]]]; try discriminate.
      * inversion Hf. auto.
      * inversion Hf. auto.
      * cbn [app] in Hf. apply in_app_or in Hf.
        destruct Hf as [Hf | [Hf | []]]; [| discriminate].
        rewrite Forall_forall in Hrep_writes.
        destruct (Hrep_writes _ Hf) as (chunk & Hc). discriminate.
Qed.

Lemma main_output_files_of_sample :
  In (Mkdir "./results/reduced") (fst (main Sample.runtime default_files)) /\
  In (OpenW "./results/reduced/combined_20240101120000_reduced.json")
    (fst (main Sample.runtime default_files)) /\
  In (OpenW "./results/reduced/combined_20240101120000_summary.txt")
    (fst (main Sample.runtime default_files)) /\
  forall f, In (OpenW f) (fst (main Sample.runtime default_files)) ->
            f = "./results/reduced/combined_20240101120000_reduced.json" \/
            f = "./results/reduced/combined_20240101120000_summary.txt".
Proof.
  apply (main_output_files Sample.runtime default_files
           (fst (main Sample.runtime default_files)) Sample.mixed_summary).
  vm_compute. reflexivity.
Defined.

(** ** Failures after the read *)

(** X3.  When the file holds a JSON string whose text is not JSON, the
    second decoding raises its error to the caller; unlike a failure of the
    read, the error is not logged, and as there nothing is written. *)
Theorem second_decode_failure_is_raised_unlogged (R : Runtime) (fs : files)
    (p out text err : string) :
  json_load R fs p = inr (JStr text) ->
  json_loads R text = inl err ->
  reduce_results R fs p out = ([start_line p], inl (EnvError err)).
Proof.
  intros Hload Herr. unfold reduce_results. rewrite Hload.
  cbn [decode_again]. rewrite Herr. reflexivity.
Qed.

Lemma string_of_garbage_is_raised_unlogged :
  reduce_results Sample2.runtime
    (Sample.file_with Sample.path Sample2.oops_in_string) Sample.path Sample.out =
  ([start_line Sample.path],
   inl (EnvError "Expecting value: line 1 column 1 (char 0)")).
Proof.
  exact (second_decode_failure_is_raised_unlogged Sample2.runtime
           (Sample.file_with Sample.path Sample2.oops_in_string)
           Sample.path Sample.out "oops" _ eq_refl eq_refl).
Defined.

Lemma run_of_failed_entries (R : Runtime) (fs : files) (p out : string)
    (es : list json) (tl : list event) (e : pyexc) :
  combined_entries R fs p = inr es ->
  for_each (process_result R) empty_summary es = (tl, inl e) ->
  reduce_results R fs p out = (start_line p :: tl, inl e).
Proof.
  intros Hes Hloop.
  apply combined_entries_inv in Hes. destruct Hes as (v & v' & Hv & Hd & <-).
  unfold reduce_results. rewrite Hv.
  change (start_line p :: tl) with ([start_line p] ++ ([] ++ tl))%list.
  eapply bind_run with (a := tt); [reflexivity |].
  eapply bind_run; [exact Hd |].
  unfold bind. rewrite Hloop. reflexivity.
Qed.

(** X4.  When an entry makes the loop raise an exception, the run raises
    that exception and ends there: its events are the start line and the
    warnings logged up to that entry, so that no directory was made and no
    file was opened or written, whatever the entries before it were. *)
Theorem failed_entry_aborts_before_output (R : Runtime) (fs : files) (p out : string)
    (es : list json) (tl : list event) (e : pyexc) :
  combined_entries R fs p = inr es ->
  for_each (process_result R) empty_summary es = (tl, inl e) ->
  reduce_results R fs p out = (start_line p :: tl, inl e) /\
  (forall ev, In ev tl -> exists x, ev = skip_warning R x) /\
  (forall ev, In ev (fst (reduce_results R fs p out)) -> is_output ev = false).
Proof.
  intros Hes Hloop.
  pose proof (run_of_failed_entries R fs p out es tl e Hes Hloop) as Hrun.
  pose proof (loop_events R es empty_summary) as Hev.
  rewrite Hloop in Hev. cbn [fst] in Hev. rewrite Forall_forall in Hev.
  split; [exact Hrun |]. split; [exact Hev |].
  rewrite Hrun. cbn [fst]. intros ev [<- | Hin]; [reflexivity |].
  destruct (Hev ev Hin) as (x & ->). reflexivity.
Qed.

Lemma mistyped_entry_aborts_before_output :
  reduce_results Sample2.runtime
    (Sample.file_with Sample.path Sample2.number_then_mistyped_text)
    Sample.path Sample.out =
    ([start_line Sample.path; skip_warning Sample2.runtime (JInt 7)], inl TypeError) /\
  (forall ev, In ev [skip_warning Sample2.runtime (JInt 7)] ->
              exists x, ev = skip_warning Sample2.runtime x) /\
  (forall ev,
      In ev (fst (reduce_results Sample2.runtime
                    (Sample.file_with Sample.path Sample2.number_then_mistyped_text)
                    Sample.path Sample.out)) ->
      is_output ev = false).
Proof.
  exact (failed_entry_aborts_before_output Sample2.runtime
           (Sample.file_with Sample.path Sample2.number_then_mistyped_text)
           Sample.path Sample.out (as_list Sample2.number_then_mistyped_value)
           [skip_warning Sample2.runtime (JInt 7)] TypeError eq_refl eq_refl).
Defined.

(** ** The records of a returned summary *)

Lemma entry_effect_built (s s' : summary) (r : pydict) :
  entry_effect s r s' ->
  Forall built_record (all_matches s) -> Forall built_record (all_matches s').
Proof.
  intros H Hs.
  destruct H as [n fbr vulns recs md Hp Hn Hf Hv HF Hmd | n fbr ms recs Hp Hn Hf Hi HF];
    cbn [all_matches]; apply Forall_app; (split; [assumption |]);
    rewrite Forall_forall; intros m Hm.
  - revert m Hm. eapply Forall2_right; [| exact HF].
    intros x y Hxy. right. eauto.
  - revert m Hm. eapply Forall2_right; [| exact HF].
    intros x y Hxy. left. eauto.
Qed.

Lemma entries_effect_built (s s' : summary) (l : list pydict) :
  entries_effect s l s' ->
  Forall built_record (all_matches s) -> Forall built_record (all_matches s').
Proof.
  induction 1 as [s | s s1 s' r l He Hl IH]; [auto |].
  intros Hs. apply IH. eapply entry_effect_built; eassumption.
Qed.

Lemma returned_records_built (R : Runtime) (fs : files) (p out : string)
    (t : list event) (s : summary) :
  reduce_results R fs p out = (t, inr s) -> Forall built_record (all_matches s).
Proof.
  intros H. apply reduce_results_inv in H. destruct H as (es & _ & He).
  eapply entries_effect_built; [exact He | constructor].
Qed.

(** X5.  In a returned summary every element of [all_matches] has exactly
    the six keys of a finding, in the order of lines 90-95, when its type is
    finding, and exactly the ten keys of a vulnerability, in the order of
    lines 63-72, when its type is vulnerability; and
    [vulnerability_summary], when present, has exactly the six severity keys:
    keys of the input that the code does not read are not copied. *)
Theorem returned_summary_schema (R : Runtime) (fs : files) (p out : string)
    (t : list event) (s : summary) :
  reduce_results R fs p out = (t, inr s) ->
  Forall (fun m =>
            (field_is m "type" (JStr "finding") /\ map fst m = finding_keys) \/
            (field_is m "type" (JStr "vulnerability") /\ map fst m = vulnerability_keys))
    (all_matches s) /\
  (forall counts, vulnerability_summary s = Some counts ->
                  map fst counts = severity_keys).
Proof.
  intros H. split.
  - eapply Forall_impl; [| exact (returned_records_built _ _ _ _ _ _ H)].
    intros m [(rn & mt & d & ds & de & _ & _ & _ & ->) | (rn & item & d & _ & ->)];
      [left | right]; split; reflexivity.
  - apply reduce_results_inv in H. destruct H as (es & _ & He).
    apply entries_effect_vulnerability_summary in He.
    intros counts Hc. destruct (last_with is_package_scan (dicts es)).
    + destruct He as (md & _ & Hs). rewrite Hs in Hc. inversion Hc. reflexivity.
    + rewrite He in Hc. discriminate.
Qed.

Lemma schema_of_mixed_run :
  Forall (fun m =>
            (field_is m "type" (JStr "finding") /\ map fst m = finding_keys) \/
            (field_is m "type" (JStr "vulnerability") /\ map fst m = vulnerability_keys))
    (all_matches Sample.mixed_summary) /\
  (forall counts, vulnerability_summary Sample.mixed_summary = Some counts ->
                  map fst counts = severity_keys).
Proof.
  apply (returned_summary_schema Sample.runtime mixed_files Sample.path Sample.out
           (fst (reduce_results Sample.runtime mixed_files Sample.path Sample.out))).
  vm_compute. reflexivity.
Defined.

(** ** The server name and the directories of the path *)

Lemma contains_char_app (c : ascii) (a b : string) :
  contains_char c (a ++ b) = contains_char c a || contains_char c b.
Proof.
  induction a as [| d a IH]; cbn; [reflexivity |]. rewrite IH. apply orb_assoc.
Qed.

Lemma basename_plain (name : string) :
  contains_char "/"%char name = false -> basename name = name.
Proof.
  destruct name as [| c r]; cbn; [reflexivity |].
  intros H. apply orb_false_iff in H. destruct H as [Hc Hr]. now rewrite Hr, Hc.
Qed.

Lemma basename_of_joined (dir name : string) :
  contains_char "/"%char name = false ->
  basename (dir ++ String "/"%char name) = name.
Proof.
  intros Hn. induction dir as [| c dir IH]; cbn [append basename].
  - rewrite Hn. reflexivity.
  - rewrite contains_char_app. cbn [contains_char].
    replace (is_char "/"%char "/"%char) with true by reflexivity.
    rewrite orb_true_r. exact IH.
Qed.

(** X6.  Only the last component of the path names the server: the server
    name of a file in a directory is the server name of the file name alone,
    so an underscore or a dot in a directory name has no effect; and it is the
    empty string when the path ends in a slash. *)
Theorem server_name_ignores_directories (dir name : string) :
  contains_char "/"%char name = false ->
  server_name_of (dir ++ String "/"%char name) = server_name_of name /\
  server_name_of (dir ++ "/") = EmptyString.
Proof.
  intros Hn. unfold server_name_of. split.
  - now rewrite (basename_of_joined dir name Hn), (basename_plain name Hn).
  - now rewrite (basename_of_joined dir EmptyString eq_refl).
Qed.

Lemma server_name_in_underscored_directory :
  server_name_of ("./scan_results.d" ++ String "/"%char "myserver_20240101.json")
    = server_name_of "myserver_20240101.json" /\
  server_name_of ("./scan_results.d" ++ "/") = EmptyString.
Proof.
  exact (server_name_ignores_directories "./scan_results.d" "myserver_20240101.json"
           eq_refl).
Defined.

(** ** The exceptions of a block *)

Lemma raises_only_bind {A B : Type} (Q : pyexc -> Prop) (m : M A) (k : A -> M B) :
  raises_only Q m ->
  (forall t a, m = (t, inr a) -> raises_only Q (k a)) ->
  raises_only Q (bind m k).
Proof.
  unfold raises_only, bind. intros Hm Hk e.
  destruct m as [t [e' | a]].
  - cbn. intros He. inversion He; subst. now apply Hm.
  - specialize (Hk t a eq_refl e). destruct (k a) as [t' r]. exact Hk.
Qed.

Lemma raises_only_for_each {A S : Type} (Q : pyexc -> Prop) (body : S -> A -> M S) :
  (forall s x, raises_only Q (body s x)) ->
  forall l s, raises_only Q (for_each body s l).
Proof.
  intros Hb. induction l as [| x l IH]; intros s; cbn [for_each].
  - intros e He. discriminate.
  - apply raises_only_bind; [apply Hb | intros t a _; apply IH].
Qed.

Lemma raises_only_lift {A : Type} (Q : pyexc -> Prop) (r : result A) :
  (forall e, r = inl e -> Q e) -> raises_only Q (lift r).
Proof. intros H e He. exact (H e He). Qed.

Lemma raises_only_impl {A : Type} (Q Q' : pyexc -> Prop) (m : M A) :
  (forall e, Q e -> Q' e) -> raises_only Q m -> raises_only Q' m.
Proof. intros HQ Hm e He. exact (HQ e (Hm e He)). Qed.

Lemma lift_inr {A : Type} (r : result A) (t : list event) (a : A) :
  lift r = (t, inr a) -> r = inr a.
Proof. unfold lift. intros H. now inversion H. Qed.

Lemma py_len_raises (v : json) (e : pyexc) : py_len v = inl e -> e = TypeError.
Proof. destruct v; cbn; intros H; now inversion H. Qed.

Lemma py_iter_raises (v : json) (e : pyexc) : py_iter v = inl e -> e = TypeError.
Proof. destruct v; cbn; intros H; now inversion H. Qed.

Lemma py_items_raises (v : json) (e : pyexc) : py_items v = inl e -> e = AttributeError.
Proof. destruct v; cbn; intros H; now inversion H. Qed.

Lemma py_get_raises (v : json) (k : string) (dflt : json) (e : pyexc) :
  py_get v k dflt = inl e -> e = AttributeError.
Proof. destruct v; cbn; intros H; now inversion H. Qed.

Lemma dict_setitem_raises (d : kdict) (k : json) (n : nat) (e : pyexc) :
  dict_setitem d k n = inl e -> e = TypeError.
Proof.
  unfold dict_setitem. destruct (py_hash_key k); intros H; now inversion H.
Qed.

Lemma join_strs_raises (sep : string) (l : list json) (e : pyexc) :
  join_strs sep l = inl e -> e = TypeError.
Proof.
  induction l as [| x l IH]; cbn [join_strs]; [discriminate |].
  destruct x; try (intros H; now inversion H).
  destruct l as [| y l']; [discriminate |].
  destruct (join_strs sep (y :: l')) as [e' |]; [| discriminate].
  intros H. inversion H; subst. now apply IH.
Qed.

Lemma py_join_raises (sep : string) (v : json) (e : pyexc) :
  py_join sep v = inl e -> e = TypeError.
Proof.
  unfold py_join. destruct (py_iter v) as [e' | l] eqn:Hi.
  - intros H. inversion H; subst. eapply py_iter_raises; eassumption.
  - apply join_strs_raises.
Qed.

(** The statements of the loop body raise [TypeError] or [AttributeError]. *)
Ltac loop_raises :=
  repeat first
    [ apply raises_only_bind; [| intros ? ? _ ]
    | apply raises_only_for_each; intros
    | match goal with
      | |- raises_only _ (if ?b then _ else _) => destruct b
      | |- raises_only _ (getM _ _ _) =>
          apply raises_only_lift; intros ? He; right; exact (py_get_raises _ _ _ _ He)
      | |- raises_only _ (lift (py_len _)) =>
          apply raises_only_lift; intros ? He; left; exact (py_len_raises _ _ He)
      | |- raises_only _ (lift (py_iter _)) =>
          apply raises_only_lift; intros ? He; left; exact (py_iter_raises _ _ He)
      | |- raises_only _ (lift (py_items _)) =>
          apply raises_only_lift; intros ? He; right; exact (py_items_raises _ _ He)
      | |- raises_only _ (lift (dict_setitem _ _ _)) =>
          apply raises_only_lift; intros ? He; left; exact (dict_setitem_raises _ _ _ _ He)
      | |- raises_only _ (ret _) => intros ? He; discriminate He
      end ].

Lemma process_result_raises (R : Runtime) (s : summary) (x : json) :
  raises_only type_or_attribute_error (process_result R s x).
Proof.
  destruct x; try (intros e He; discriminate He).
  unfold process_result, vulnerability_match, finding_match, severity_counts,
    type_or_attribute_error.
  loop_raises.
Qed.

Lemma loop_raises_type_or_attribute_error (R : Runtime) (es : list json) (s : summary) :
  raises_only type_or_attribute_error (for_each (process_result R) s es).
Proof. apply raises_only_for_each. intros. apply process_result_raises. Qed.

Section ReportRaises.
Context (R : Runtime) (Q : pyexc -> Prop).
Hypothesis Q_type_error : Q TypeError.
Hypothesis Q_write_error : forall f chunk text,
  os_write R f chunk = Some text -> Q (EnvError text).

Lemma write_raises (f chunk : string) : raises_only Q (write R f chunk).
Proof.
  unfold write. intros e. destruct (os_write R f chunk) as [text |] eqn:Hw; cbn.
  - intros He. inversion He; subst. eapply Q_write_error; eassumption.
  - discriminate.
Qed.

Lemma join_raises (sep : string) (v : json) : raises_only Q (lift (py_join sep v)).
Proof.
  apply raises_only_lift. intros e He. now rewrite (py_join_raises _ _ _ He).
Qed.

(** One statement of the paragraph of a record whose fields are known: a
    lookup yields the field, a test on the type is decided. *)
Ltac paragraph_raises :=
  repeat first
    [ apply raises_only_bind;
      [| let Hm := fresh "Hm" in
         intros ? ? Hm;
         try (apply lift_inr in Hm; cbn in Hm; injection Hm as <-) ]
    | apply write_raises
    | apply join_raises
    | match goal with
      | |- raises_only _ (if py_eq_str (JStr ?s) ?k then _ else _) =>
          let b := eval vm_compute in (py_eq_str (JStr s) k) in
          change (py_eq_str (JStr s) k) with b; cbv iota
      | |- raises_only _ (if py_truthy ?v then _ else _) => destruct (py_truthy v)
      | |- raises_only _ (lift (dict_getitem _ _)) =>
          let He := fresh "He" in intros ? He; cbn in He; discriminate He
      | |- raises_only _ (ret _) =>
          let He := fresh "He" in intros ? He; discriminate He
      end ].

Lemma report_match_raises (f : string) (m : pydict) :
  built_record m -> raises_only Q (report_match R f tt m).
Proof.
  intros [(rn & mt & d & ds & de & _ & _ & _ & ->) | (rn & item & d & _ & ->)];
    unfold report_match, finding_record, vulnerability_record; paragraph_raises.
Qed.

Lemma report_loop_raises (f : string) (l : list pydict) :
  Forall built_record l -> raises_only Q (for_each (report_match R f) tt l).
Proof.
  induction 1 as [| m l Hm Hl IH]; cbn [for_each].
  - intros e He. discriminate.
  - apply raises_only_bind; [now apply report_match_raises |].
    intros t [] _. exact IH.
Qed.

Lemma write_report_raises (f : string) (s : summary) :
  Forall built_record (all_matches s) -> raises_only Q (write_report R f s).
Proof.
  intros Hs. unfold write_report.
  repeat first
    [ apply raises_only_bind; [| intros ? ? _ ]
    | apply write_raises
    | apply report_loop_raises; exact Hs
    | apply raises_only_for_each; intros ].
Qed.
End ReportRaises.

(** ** The inputs that a run accepts *)

Lemma for_each_unit_inr {A : Type} (body : unit -> A -> M unit) (l : list A) :
  forall t, for_each body tt l = (t, inr tt) ->
            Forall (fun x => exists t', body tt x = (t', inr tt)) l.
Proof.
  induction l as [| x l IH]; intros t H; [constructor |].
  apply for_each_cons_inr in H. destruct H as (t1 & [] & t2 & Hb & Hl & _).
  constructor; [eauto | eapply IH; eassumption].
Qed.

Lemma write_report_inr (R : Runtime) (f : string) (s : summary) (t : list event) :
  write_report R f s = (t, inr tt) ->
  Forall (fun m => exists t', report_match R f tt m = (t', inr tt)) (all_matches s).
Proof.
  unfold write_report. intros H.
  do 5 (apply bind_inr in H; destruct H as (? & ? & ? & _ & H & _)).
  eapply for_each_unit_inr. exact H.
Qed.

Lemma returned_reports (R : Runtime) (fs : files) (p out : string)
    (t : list event) (s : summary) :
  reduce_results R fs p out = (t, inr s) ->
  Forall (fun m => exists t', report_match R (txt_path_of R p out) tt m = (t', inr tt))
    (all_matches s).
Proof.
  intros H. apply reduce_results_run in H.
  destruct H as (es & t_out & _ & _ & Hsave & _).
  pose proof (save_outputs_inv _ _ _ _ _ _ _ Hsave) as Hinv. cbv zeta in Hinv.
  destruct Hinv as (t_rep & Hrep & _).
  eapply write_report_inr. exact Hrep.
Qed.

(** One statement of a block that returned. *)
Ltac returned_statement H :=
  apply bind_inr in H;
  let Hm := fresh "Hm" in
  destruct H as (? & ? & ? & Hm & H & _);
  try (apply lift_inr in Hm; cbn in Hm; injection Hm as <-).

Lemma vulnerability_paragraph_inv (R : Runtime) (f : string) (rn : json) (pkg : string)
    (d : pydict) (t : list event) :
  report_match R f tt (vulnerability_record rn pkg d) = (t, inr tt) ->
  well_typed_vulnerability (JDict d) = true.
Proof.
  unfold report_match, vulnerability_record. intros H.
  do 3 returned_statement H.
  change (py_eq_str (JStr "vulnerability") "vulnerability") with true in H.
  cbv iota in H.
  do 16 returned_statement H.
  cbn [well_typed_vulnerability]. unfold joinable.
  repeat match goal with
         | Hc : (if py_truthy ?v then _ else _) = _ |- _ =>
             destruct (py_truthy v);
             [ do 2 returned_statement Hc | clear Hc ]
         | Hj : lift (py_join _ _) = _ |- _ => apply lift_inr in Hj; rewrite Hj
         end.
  all: reflexivity.
Qed.

Lemma findings_well_typed (rn : json) (ms : list json) (recs : list pydict) :
  Forall2 (finding_of rn) ms recs -> forallb well_typed_match ms = true.
Proof.
  induction 1 as [| mt m ms recs (d & ds & de & -> & Hs & He & _) _ IH];
    [reflexivity |].
  cbn [forallb well_typed_match]. rewrite Hs, He, IH. reflexivity.
Qed.

Lemma vulnerabilities_well_typed (R : Runtime) (f : string) (rn : json)
    (vulns : pydict) (recs : list pydict) :
  Forall2 (vulnerability_of rn) vulns recs ->
  Forall (fun m => exists t, report_match R f tt m = (t, inr tt)) recs ->
  forallb (fun item => well_typed_vulnerability (snd item)) vulns = true.
Proof.
  induction 1 as [| item m vulns recs (d & Hd & ->) _ IH]; intros HR;
    [reflexivity |].
  inversion HR as [| m' l' (t & Ht) HR']; subst.
  cbn [forallb]. rewrite Hd, (vulnerability_paragraph_inv _ _ _ _ _ _ Ht), (IH HR').
  reflexivity.
Qed.

Lemma entry_effect_accepted (R : Runtime) (f : string) (s s' : summary) (r : pydict) :
  entry_effect s r s' ->
  Forall (fun m => exists t, report_match R f tt m = (t, inr tt)) (all_matches s') ->
  accepted r = true.
Proof.
  intros H HR. unfold accepted, sized, hashable.
  destruct H as [n fbr vulns recs md Hp Hn Hf Hv HF Hmd | n fbr ms recs Hp Hn Hf Hi HF];
    cbn [all_matches] in HR; apply Forall_app in HR; destruct HR as [_ HR];
    rewrite Hn, Hp; unfold dict_setitem in Hf;
    (destruct (py_hash_key (rulename_of r)); [| discriminate]); cbn [andb].
  - rewrite Hv, (vulnerabilities_well_typed R f _ _ _ HF HR). cbn [andb].
    destruct (dict_get r "metadata" (JDict [])); try discriminate.
    cbn [py_get] in Hmd. inversion Hmd as [Hmd']. rewrite Hmd'. reflexivity.
  - rewrite Hi. eapply findings_well_typed; eassumption.
Qed.

Lemma entries_effect_accepted (R : Runtime) (f : string) (s s' : summary)
    (l : list pydict) :
  entries_effect s l s' ->
  Forall (fun m => exists t, report_match R f tt m = (t, inr tt)) (all_matches s') ->
  forallb accepted l = true.
Proof.
  induction 1 as [s | s s1 s' r l He Hl IH]; intros HR; [reflexivity |].
  cbn [forallb]. rewrite (IH HR), andb_true_r.
  apply (entry_effect_accepted R f s s1 r He).
  apply entries_effect_groups in Hl. destruct Hl as (groups & Ha & _).
  rewrite Ha in HR. apply Forall_app in HR. tauto.
Qed.

Lemma accepted_entry_effect (s : summary) (r : pydict) :
  accepted r = true ->
  exists s' g,
    entry_effect s r s' /\ all_matches s' = (all_matches s ++ g)%list /\
    Forall reportable g.
Proof.
  unfold accepted, sized, hashable. intros H.
  apply andb_prop in H. destruct H as [H Hbody].
  apply andb_prop in H. destruct H as [Hn Hk].
  destruct (py_len (matches_of r)) as [| n] eqn:En; [discriminate |].
  destruct (py_hash_key (rulename_of r)) as [h |] eqn:Eh; [| discriminate].
  destruct (kdict_setitem_str (findings_by_rule s) (rulename_of r) n) as (fbr & Hf);
    [eauto |].
  destruct (is_package_scan r) eqn:Hp.
  - apply andb_prop in Hbody. destruct Hbody as [Hv Hmd].
    destruct (vulnerabilities_of r) as [| | | | | | vulns] eqn:Ev; try discriminate.
    destruct (dict_get r "metadata" (JDict [])) as [| | | | | | meta] eqn:Emeta;
      try discriminate.
    destruct (dict_get meta "vulnerabilities" (JDict [])) as [| | | | | | md] eqn:Emd;
      try discriminate.
    destruct (well_typed_vulnerabilities_records (rulename_of r) vulns Hv)
      as (recs & HF & HR).
    exists (mk_summary (total_findings s + n) fbr
              (all_matches s ++ recs)%list (Some (counts_record md))), recs.
    split; [| split; [reflexivity | assumption]].
    eapply (effect_package s r n fbr vulns recs md); try assumption.
    rewrite Emeta. cbn [py_get]. now rewrite Emd.
  - destruct (py_iter (matches_of r)) as [| ms] eqn:Ei; [discriminate |].
    destruct (well_typed_matches_records (rulename_of r) ms Hbody) as (recs & HF & HR).
    exists (mk_summary (total_findings s + n) fbr
              (all_matches s ++ recs)%list (vulnerability_summary s)), recs.
    split; [| split; [reflexivity | assumption]].
    eapply (effect_regular s r n fbr ms recs); assumption.
Qed.

Lemma accepted_entries_effect (l : list pydict) : forall s,
  forallb accepted l = true ->
  Forall reportable (all_matches s) ->
  exists s', entries_effect s l s' /\ Forall reportable (all_matches s').
Proof.
  induction l as [| r l IH]; cbn [forallb]; intros s H HR.
  - exists s. split; [constructor | assumption].
  - apply andb_prop in H. destruct H as [Hr Hl].
    destruct (accepted_entry_effect s r Hr) as (s1 & g & He & Ha & Hg).
    destruct (IH s1 Hl) as (s' & Hl' & HR').
    { rewrite Ha. apply Forall_app. auto. }
    exists s'. split; [econstructor; eassumption | assumption].
Qed.

(** X7.  When the output directory and files can be made and written, a run
    returns a summary exactly when the file decodes to entries and every
    object among them is accepted: its rule name is no list or object, its
    [matches] has a length and, in a package scan, every vulnerability is an
    object whose [via], [effects] and [nodes] can be joined and
    [metadata.vulnerabilities] is an object, and otherwise every match is an
    object whose [start] and [extra] are objects.  On every other input the
    run raises an exception. *)
Theorem returns_iff_accepted (R : Runtime) (fs : files) (p out : string) :
  os_mkdir R out = None ->
  (forall f, os_open_w R f = None) ->
  writable R ->
  (exists t s, reduce_results R fs p out = (t, inr s)) <->
  (exists es, combined_entries R fs p = inr es /\ forallb accepted (dicts es) = true).
Proof.
  intros Hmk Hopen Hw. split.
  - intros (t & s & H).
    pose proof (returned_reports R fs p out t s H) as HR.
    apply reduce_results_inv in H. destruct H as (es & Hes & He).
    exists es. split; [exact Hes |].
    eapply entries_effect_accepted; eassumption.
  - intros (es & Hes & Hacc).
    destruct (accepted_entries_effect (dicts es) empty_summary Hacc) as (s & He & HR);
      [constructor |].
    destruct (save_outputs_ok R (server_name_of p) (now_stamp R) out s Hmk Hopen Hw HR)
      as (t_out & Hsave).
    eexists. exists s.
    eapply run_of_entries; [exact Hes | apply loop_ok; exact He | exact Hsave].
Qed.

Lemma returns_iff_accepted_on_mixed_document :
  (exists t s,
      reduce_results Sample.runtime mixed_files Sample.path Sample.out = (t, inr s)) <->
  (exists es,
      combined_entries Sample.runtime mixed_files Sample.path = inr es /\
      forallb accepted (dicts es) = true).
Proof.
  exact (returns_iff_accepted Sample.runtime mixed_files Sample.path Sample.out
           eq_refl (fun _ => eq_refl) (fun _ _ => eq_refl)).
Defined.

(** ** The exceptions of a run *)

Lemma failed_read_run (R : Runtime) (fs : files) (p out err : string) :
  combined_entries R fs p = inl err ->
  snd (reduce_results R fs p out) = inl (EnvError err) /\
  forall ev, In ev (fst (reduce_results R fs p out)) -> is_output ev = false.
Proof.
  unfold combined_entries, reduce_results.
  destruct (json_load R fs p) as [text | v].
  - intros H. inversion H; subst. split; [reflexivity |].
    cbn. intros ev [<- | [<- | []]]; reflexivity.
  - destruct v; try discriminate. cbn [decode_again].
    destruct (json_loads R s) as [text | v']; [| discriminate].
    intros H. inversion H; subst. split; [reflexivity |].
    cbn. intros ev [<- | []]; reflexivity.
Qed.

Lemma save_outputs_raises (R : Runtime) (sn ts out : string) (s : summary) :
  Forall built_record (all_matches s) ->
  raises_only type_or_env_error (save_outputs R sn ts out s).
Proof.
  intros Hs. unfold save_outputs, open_w, type_or_env_error.
  repeat first
    [ apply write_report_raises; [left; reflexivity | intros; right; eauto | exact Hs]
    | apply write_raises; intros; right; eauto
    | apply raises_only_bind; [| intros ? ? _ ]
    | match goal with
      | |- raises_only _ (match ?o with Some _ => _ | None => _ end) =>
          destruct o; intros ? He; cbn in He; [inversion He; right; eauto | discriminate He]
      | |- raises_only _ (log _ _) => intros ? He; discriminate He
      | |- raises_only _ (ret _) => intros ? He; discriminate He
      end ].
Qed.

(** X8.  The exceptions that a run raises are [TypeError], [AttributeError]
    and the errors of the system and of the decoder; a lookup in a record of
    the summary never fails, so that no [KeyError] is raised.  An
    [AttributeError] comes from an entry of the input: when it is raised,
    nothing has been written. *)
Theorem raised_exceptions (R : Runtime) (fs : files) (p out : string)
    (t : list event) (e : pyexc) :
  reduce_results R fs p out = (t, inl e) ->
  (e = TypeError \/ e = AttributeError \/ exists text, e = EnvError text) /\
  (e = AttributeError -> forall ev, In ev t -> is_output ev = false).
Proof.
  intros H. destruct (combined_entries R fs p) as [err | es] eqn:Hes.
  - destruct (failed_read_run R fs p out err Hes) as [Hsnd Hout].
    rewrite H in Hsnd, Hout. cbn in Hsnd. inversion Hsnd; subst.
    split; [right; right; eauto | intros _; exact Hout].
  - destruct (for_each (process_result R) empty_summary es) as [tl [e0 | s]] eqn:Hloop.
    + pose proof (run_of_failed_entries R fs p out es tl e0 Hes Hloop) as Hrun.
      rewrite H in Hrun. inversion Hrun; subst.
      pose proof (loop_raises_type_or_attribute_error R es empty_summary e0) as Hq.
      rewrite Hloop in Hq. specialize (Hq eq_refl).
      split; [destruct Hq; auto |]. intros _ ev [<- | Hin]; [reflexivity |].
      pose proof (loop_events R es empty_summary) as Hev.
      rewrite Hloop in Hev. cbn [fst] in Hev. rewrite Forall_forall in Hev.
      destruct (Hev ev Hin) as (x & ->). reflexivity.
    + destruct (save_outputs R (server_name_of p) (now_stamp R) out s) as [t_out r] eqn:Hs.
      pose proof (run_of_entries R fs p out es tl t_out s r Hes Hloop Hs) as Hrun.
      rewrite H in Hrun. inversion Hrun; subst.
      assert (Hb : Forall built_record (all_matches s)).
      { apply loop_inv in Hloop. destruct Hloop as [_ He].
        eapply entries_effect_built; [exact He | constructor]. }
      pose proof (save_outputs_raises R (server_name_of p) (now_stamp R) out s Hb e) as Hq.
      rewrite Hs in Hq. specialize (Hq eq_refl).
      split.
      * destruct Hq as [-> | Hq]; auto.
      * intros ->. destruct Hq as [Hq | (text & Hq)]; discriminate.
Qed.

Lemma raised_exception_of_mistyped_run :
  (TypeError = TypeError \/ TypeError = AttributeError \/
   exists text, TypeError = EnvError text) /\
  (TypeError = AttributeError ->
   forall ev, In ev [ Log INFO ("Reading combined results from " ++ Sample.path) ] ->
              is_output ev = false).
Proof.
  exact (raised_exceptions Sample.runtime
           (Sample.file_with Sample.path Sample.mistyped_text) Sample.path Sample.out
           _ _ eq_refl).
Defined.

(** ** A report that cannot be written *)

Lemma save_outputs_report_failed (R : Runtime) (sn ts out : string) (s : summary)
    (t_rep : list event) (e : pyexc) :
  os_mkdir R out = None ->
  (forall f, os_open_w R f = None) ->
  writable R ->
  write_report R (path_join R out (sn ++ "_" ++ ts ++ "_summary.txt")) s = (t_rep, inl e) ->
  save_outputs R sn ts out s =
    (([ Mkdir out;
        OpenW (path_join R out (sn ++ "_" ++ ts ++ "_reduced.json"));
        FWrite (path_join R out (sn ++ "_" ++ ts ++ "_reduced.json")) (json_dumps R s);
        OpenW (path_join R out (sn ++ "_" ++ ts ++ "_summary.txt")) ] ++ t_rep)%list,
     inl e).
Proof.
  intros Hmk Hopen Hw Hrep. unfold save_outputs, open_w. rewrite Hmk, !Hopen.
  change ([ Mkdir out;
            OpenW (path_join R out (sn ++ "_" ++ ts ++ "_reduced.json"));
            FWrite (path_join R out (sn ++ "_" ++ ts ++ "_reduced.json")) (json_dumps R s);
            OpenW (path_join R out (sn ++ "_" ++ ts ++ "_summary.txt")) ] ++ t_rep)%list
    with ([Mkdir out]
            ++ ([OpenW (path_join R out (sn ++ "_" ++ ts ++ "_reduced.json"))]
                  ++ ([FWrite (path_join R out (sn ++ "_" ++ ts ++ "_reduced.json"))
                         (json_dumps R s)]
                        ++ ([OpenW (path_join R out (sn ++ "_" ++ ts ++ "_summary.txt"))]
                              ++ t_rep))))%list.
  do 4 run_statement Hw.
  unfold bind. rewrite Hrep. reflexivity.
Qed.

(** X9.  When every entry passes the loop but some object entry is not
    accepted (a vulnerability whose [via], [effects] or [nodes] cannot be
    joined, such as a [via] that holds advisory objects), and the output can
    be made and written, the run raises [TypeError] while it writes the
    report: by then the output directory exists, the JSON summary has been
    written in full and the report has been opened and written in part. *)
Theorem unjoinable_field_leaves_partial_output (R : Runtime) (fs : files)
    (p out : string) (es : list json) (tl : list event) (s : summary) :
  combined_entries R fs p = inr es ->
  for_each (process_result R) empty_summary es = (tl, inr s) ->
  forallb accepted (dicts es) = false ->
  os_mkdir R out = None ->
  (forall f, os_open_w R f = None) ->
  writable R ->
  exists t_rep,
    reduce_results R fs p out =
      ((start_line p :: map (skip_warning R) (non_dicts es)
          ++ [ Mkdir out;
               OpenW (json_path_of R p out);
               FWrite (json_path_of R p out) (json_dumps R s);
               OpenW (txt_path_of R p out) ]
          ++ t_rep)%list,
       inl TypeError).
Proof.
  intros Hes Hloop Hacc Hmk Hopen Hw.
  pose proof (loop_inv R es _ _ _ Hloop) as [-> He].
  destruct (write_report R (txt_path_of R p out) s) as [t_rep [e | []]] eqn:Hrep.
  - assert (Hb : Forall built_record (all_matches s))
      by (eapply entries_effect_built; [exact He | constructor]).
    assert (Hq : e = TypeError).
    { assert (Hvac : forall f chunk text,
                 os_write R f chunk = Some text -> EnvError text = TypeError).
      { intros f chunk text Hsome. rewrite (Hw f chunk) in Hsome. discriminate. }
      pose proof (write_report_raises R (fun e => e = TypeError) eq_refl Hvac
                    (txt_path_of R p out) s Hb e) as Hr.
      rewrite Hrep in Hr. now apply Hr. }
    subst e. exists t_rep.
    eapply run_of_entries; [exact Hes | exact Hloop |].
    apply save_outputs_report_failed; assumption.
  - pose proof (write_report_inr R _ s t_rep Hrep) as HR.
    rewrite (entries_effect_accepted R _ _ _ _ He HR) in Hacc. discriminate.
Qed.

Lemma advisory_run_leaves_partial_output :
  exists t_rep,
    reduce_results Sample2.runtime
      (Sample.file_with Sample.path Sample2.advisory_text) Sample.path Sample.out =
      ((start_line Sample.path
          :: map (skip_warning Sample2.runtime) (non_dicts (as_list Sample2.advisory_value))
          ++ [ Mkdir Sample.out;
               OpenW (json_path_of Sample2.runtime Sample.path Sample.out);
               FWrite (json_path_of Sample2.runtime Sample.path Sample.out)
                 (json_dumps Sample2.runtime Sample2.advisory_summary);
               OpenW (txt_path_of Sample2.runtime Sample.path Sample.out) ]
          ++ t_rep)%list,
       inl TypeError).
Proof.
  exact (unjoinable_field_leaves_partial_output Sample2.runtime
           (Sample.file_with Sample.path Sample2.advisory_text) Sample.path Sample.out
           (as_list Sample2.advisory_value) [] Sample2.advisory_summary
           eq_refl eq_refl eq_refl eq_refl (fun _ => eq_refl) (fun _ _ => eq_refl)).
Defined.

(** ** The keys and the counts of [findings_by_rule] *)


Lemma has_key_differs (h : hkey) (k : json) :
  has_key h k = negb (differs (py_hash_key k) (Some h)).
Proof.
  unfold has_key, differs. destruct (py_hash_key k) as [h' |].
  - destruct (hkey_eq_dec h' h) as [E | Hn];
      destruct (okey_eq_dec (Some h') (Some h)) as [He | He]; try reflexivity.
    + exfalso. apply He. now rewrite E.
    + inversion He. contradiction.
  - destruct (okey_eq_dec None (Some h)); [discriminate | reflexivity].
Qed.

Lemma keys_of_set (d : kdict) (h : hkey) (k : json) (v : nat) :
  py_hash_key k = Some h ->
  keys_of (kdict_set d h k v) = add_key (Some h) (keys_of d).
Proof.
  intros Hk. induction d as [| [k' v'] d IH]; cbn [kdict_set keys_of map add_key fst].
  - now rewrite Hk.
  - rewrite has_key_differs. unfold differs.
    destruct (okey_eq_dec (py_hash_key k') (Some h)); cbn [negb keys_of map fst].
    + reflexivity.
    + f_equal. exact IH.
Qed.

Lemma add_key_present (x : option hkey) (l : list (option hkey)) :
  In x l -> add_key x l = l.
Proof.
  induction l as [| y l IH]; [intros [] |]. cbn [add_key].
  destruct (okey_eq_dec y x) as [| Hn]; [reflexivity |].
  intros [Hy | Hin]; [contradiction |]. now rewrite IH.
Qed.

Lemma add_key_absent (x : option hkey) (l : list (option hkey)) :
  ~ In x l -> add_key x l = (l ++ [x])%list.
Proof.
  induction l as [| y l IH]; [reflexivity |]. cbn [add_key app]. intros Hn.
  destruct (okey_eq_dec y x) as [-> |]; [exfalso; apply Hn; now left |].
  rewrite IH; [reflexivity |]. intros Hin. apply Hn. now right.
Qed.

Lemma filter_twice {A : Type} (f g : A -> bool) (l : list A) :
  filter f (filter g l) = filter (fun x => g x && f x) l.
Proof.
  induction l as [| x l IH]; [reflexivity |]. cbn [filter].
  destruct (g x); cbn [filter andb]; [destruct (f x) |]; now rewrite IH.
Qed.

Lemma fold_add_key (l : list (option hkey)) : forall acc,
  fold_left (fun a x => add_key x a) l acc =
  (acc ++ filter (absent_from acc) (first_occurrences l))%list.
Proof.
  induction l as [| x l IH]; intros acc; cbn [fold_left first_occurrences filter].
  - now rewrite app_nil_r.
  - rewrite IH. unfold absent_from at 2.
    destruct (in_dec okey_eq_dec x acc) as [Hin | Hn].
    + rewrite (add_key_present x acc Hin), filter_twice. f_equal.
      apply filter_ext. intros y. unfold differs, absent_from.
      destruct (okey_eq_dec x y) as [<- |]; [| reflexivity].
      destruct (in_dec okey_eq_dec x acc); [reflexivity | contradiction].
    + rewrite (add_key_absent x acc Hn), <- app_assoc. cbn [app]. do 2 f_equal.
      rewrite filter_twice. apply filter_ext. intros y. unfold differs, absent_from.
      destruct (okey_eq_dec x y) as [<- | Hxy]; cbn [andb].
      * destruct (in_dec okey_eq_dec x (acc ++ [x])) as [| Hn']; [reflexivity |].
        exfalso. apply Hn'. apply in_or_app. right. now left.
      * destruct (in_dec okey_eq_dec y (acc ++ [x])) as [Hi | Hi];
          destruct (in_dec okey_eq_dec y acc) as [Hj | Hj]; try reflexivity.
        -- apply in_app_or in Hi. destruct Hi as [| [<- | []]]; contradiction.
        -- exfalso. apply Hi. apply in_or_app. now left.
Qed.

Lemma first_occurrences_NoDup (l : list (option hkey)) : NoDup (first_occurrences l).
Proof.
  induction l as [| x l IH]; cbn [first_occurrences]; constructor.
  - intros Hin. apply filter_In in Hin. destruct Hin as [_ Hd].
    unfold differs in Hd. destruct (okey_eq_dec x x); [discriminate | contradiction].
  - now apply NoDup_filter.
Qed.

Lemma entry_effect_setitem (s s' : summary) (r : pydict) :
  entry_effect s r s' ->
  exists h,
    py_hash_key (rulename_of r) = Some h /\
    py_len (matches_of r) = inr (len0 (matches_of r)) /\
    findings_by_rule s' =
      kdict_set (findings_by_rule s) h (rulename_of r) (len0 (matches_of r)).
Proof.
  intros H.
  assert (Hc : exists n fbr, py_len (matches_of r) = inr n /\
                 dict_setitem (findings_by_rule s) (rulename_of r) n = inr fbr /\
                 findings_by_rule s' = fbr).
  { destruct H; eauto 6. }
  destruct Hc as (n & fbr & Hn & Hf & ->). unfold dict_setitem in Hf.
  destruct (py_hash_key (rulename_of r)) as [h |]; [| discriminate].
  inversion Hf; subst. exists h. unfold len0. rewrite Hn. auto.
Qed.

Lemma entries_effect_keys (s s' : summary) (l : list pydict) :
  entries_effect s l s' ->
  keys_of (findings_by_rule s') =
  fold_left (fun a x => add_key x a) (rule_keys l) (keys_of (findings_by_rule s)).
Proof.
  induction 1 as [s | s s1 s' r l He Hl IH]; [reflexivity |].
  rewrite IH. cbn [rule_keys map fold_left].
  apply entry_effect_setitem in He. destruct He as (h & Hh & _ & Hf).
  rewrite Hf, (keys_of_set _ _ _ _ Hh), Hh. reflexivity.
Qed.

Lemma counts_loop_inr (R : Runtime) (f : string) (l : kdict) : forall t,
  for_each
    (fun (_ : unit) (item : json * nat) =>
       write R f ("- " ++ py_str R (fst item) ++ ": " ++ str_of_nat R (snd item)
                  ++ " finding(s)" ++ nl))
    tt l = (t, inr tt) ->
  t = map (rule_line R f) l.
Proof.
  induction l as [| item l IH]; intros t H.
  - cbn in H. now inversion H.
  - apply for_each_cons_inr in H. destruct H as (t1 & [] & t2 & Hw & Hl & ->).
    apply write_inr in Hw. destruct Hw as [_ ->].
    rewrite (IH _ Hl). reflexivity.
Qed.

Lemma write_report_inv (R : Runtime) (f : string) (s : summary) (t : list event) :
  write_report R f s = (t, inr tt) ->
  exists t_matches,
    for_each (report_match R f) tt (all_matches s) = (t_matches, inr tt) /\
    t = ([ FWrite f ("Security Scan Summary" ++ nl ++ "====================" ++ nl ++ nl);
           FWrite f ("Total Findings: " ++ str_of_nat R (total_findings s) ++ nl ++ nl);
           FWrite f ("Findings by Rule:" ++ nl) ]
           ++ map (rule_line R f) (findings_by_rule s)
           ++ FWrite f (nl ++ "Detailed Findings:" ++ nl) :: t_matches)%list.
Proof.
  unfold write_report. intros H.
  apply bind_inr in H. destruct H as (t1 & [] & t1' & Hw1 & H & ->).
  apply write_inr in Hw1. destruct Hw1 as [_ ->].
  apply bind_inr in H. destruct H as (t2 & [] & t2' & Hw2 & H & ->).
  apply write_inr in Hw2. destruct Hw2 as [_ ->].
  apply bind_inr in H. destruct H as (t3 & [] & t3' & Hw3 & H & ->).
  apply write_inr in Hw3. destruct Hw3 as [_ ->].
  apply bind_inr in H. destruct H as (t4 & [] & t4' & Hc & H & ->).
  apply counts_loop_inr in Hc. subst t4.
  apply bind_inr in H. destruct H as (t5 & [] & t5' & Hw5 & H & ->).
  apply write_inr in Hw5. destruct Hw5 as [_ ->].
  exists t5'. split; [exact H | reflexivity].
Qed.

(** X10.  In a returned summary the keys of [findings_by_rule] are the rule
    names of the object entries in the order in which each is first seen,
    every rule once: a rule seen again keeps its place.  And the report has
    one line for each rule in this same order: after the output directory is
    made and the JSON file written, the events of the run are the three
    heading writes of the report, the lines of the rules in the order of
    [findings_by_rule], the heading of the details, the paragraphs of the
    matches and the completion line. *)
Theorem findings_by_rule_in_first_seen_order (R : Runtime) (fs : files)
    (p out : string) (t : list event) (s : summary) :
  reduce_results R fs p out = (t, inr s) ->
  exists es t_matches,
    combined_entries R fs p = inr es /\
    keys_of (findings_by_rule s) = first_occurrences (rule_keys (dicts es)) /\
    NoDup (keys_of (findings_by_rule s)) /\
    t = (start_line p :: map (skip_warning R) (non_dicts es)
           ++ [ Mkdir out;
                OpenW (json_path_of R p out);
                FWrite (json_path_of R p out) (json_dumps R s);
                OpenW (txt_path_of R p out);
                FWrite (txt_path_of R p out)
                  ("Security Scan Summary" ++ nl ++ "====================" ++ nl ++ nl);
                FWrite (txt_path_of R p out)
                  ("Total Findings: " ++ str_of_nat R (total_findings s) ++ nl ++ nl);
                FWrite (txt_path_of R p out) ("Findings by Rule:" ++ nl) ]
           ++ map (rule_line R (txt_path_of R p out)) (findings_by_rule s)
           ++ FWrite (txt_path_of R p out) (nl ++ "Detailed Findings:" ++ nl)
              :: t_matches ++ [done_line R out])%list.
Proof.
  intros H. pose proof (reduce_results_run R fs p out t s H)
    as (es & t_out & Hes & Hloop & Hsave & ->).
  pose proof (save_outputs_inv _ _ _ _ _ _ _ Hsave) as Hinv. cbv zeta in Hinv.
  destruct Hinv as (t_rep & Hrep & ->).
  apply write_report_inv in Hrep. destruct Hrep as (t_matches & _ & ->).
  exists es, t_matches. split; [exact Hes |].
  apply loop_inv in Hloop. destruct Hloop as [_ He].
  apply entries_effect_keys in He. rewrite fold_add_key in He. cbn in He.
  assert (Hk : keys_of (findings_by_rule s) = first_occurrences (rule_keys (dicts es))).
  { rewrite He. rewrite (filter_ext _ (fun _ => true)); [| reflexivity].
    clear. induction (first_occurrences _) as [| x l IH]; cbn; [reflexivity |].
    now rewrite IH. }
  split; [exact Hk |]. split; [rewrite Hk; apply first_occurrences_NoDup |].
  unfold txt_path_of, json_path_of. cbn [app]. rewrite <- !app_assoc. reflexivity.
Qed.

Lemma first_seen_order_of_mixed_run :
  exists es t_matches,
    combined_entries Sample.runtime mixed_files Sample.path = inr es /\
    keys_of (findings_by_rule Sample.mixed_summary)
      = first_occurrences (rule_keys (dicts es)) /\
    NoDup (keys_of (findings_by_rule Sample.mixed_summary)) /\
    fst (reduce_results Sample.runtime mixed_files Sample.path Sample.out) =
      (start_line Sample.path :: map (skip_warning Sample.runtime) (non_dicts es)
         ++ [ Mkdir Sample.out;
              OpenW (json_path_of Sample.runtime Sample.path Sample.out);
              FWrite (json_path_of Sample.runtime Sample.path Sample.out)
                (json_dumps Sample.runtime Sample.mixed_summary);
              OpenW (txt_path_of Sample.runtime Sample.path Sample.out);
              FWrite (txt_path_of Sample.runtime Sample.path Sample.out)
                ("Security Scan Summary" ++ nl ++ "====================" ++ nl ++ nl);
              FWrite (txt_path_of Sample.runtime Sample.path Sample.out)
                ("Total Findings: "
                   ++ str_of_nat Sample.runtime (total_findings Sample.mixed_summary)
                   ++ nl ++ nl);
              FWrite (txt_path_of Sample.runtime Sample.path Sample.out)
                ("Findings by Rule:" ++ nl) ]
         ++ map (rule_line Sample.runtime
                   (txt_path_of Sample.runtime Sample.path Sample.out))
              (findings_by_rule Sample.mixed_summary)
         ++ FWrite (txt_path_of Sample.runtime Sample.path Sample.out)
              (nl ++ "Detailed Findings:" ++ nl)
            :: t_matches ++ [done_line Sample.runtime Sample.out])%list.
Proof.
  apply (findings_by_rule_in_first_seen_order Sample.runtime mixed_files
           Sample.path Sample.out
           (fst (reduce_results Sample.runtime mixed_files Sample.path Sample.out))).
  vm_compute. reflexivity.
Defined.

Lemma sum_counts_set (d : kdict) (h : hkey) (k : json) (v : nat) :
  sum_counts (kdict_set d h k v)
  + match kdict_find d h with Some old => old | None => 0 end
  = sum_counts d + v.
Proof.
  unfold sum_counts, list_sum.
  induction d as [| [k' v'] d IH]; cbn [kdict_set kdict_find map fold_right snd].
  - lia.
  - destruct (has_key h k'); cbn [map fold_right snd]; lia.
Qed.

Lemma entries_effect_sum_le (s s' : summary) (l : list pydict) :
  entries_effect s l s' ->
  sum_counts (findings_by_rule s')
  <= sum_counts (findings_by_rule s) + list_sum (map (fun r => len0 (matches_of r)) l).
Proof.
  induction 1 as [s | s s1 s' r l He Hl IH]; [cbn; lia |].
  apply entry_effect_setitem in He. destruct He as (h & _ & _ & Hf).
  pose proof (sum_counts_set (findings_by_rule s) h (rulename_of r)
                (len0 (matches_of r))) as Hs.
  rewrite <- Hf in Hs. unfold list_sum in *. cbn [map fold_right]. lia.
Qed.

Lemma entries_effect_sum_eq (s s' : summary) (l : list pydict) :
  entries_effect s l s' ->
  NoDup (rule_keys l) ->
  (forall h, In (Some h) (rule_keys l) -> kdict_find (findings_by_rule s) h = None) ->
  sum_counts (findings_by_rule s')
  = sum_counts (findings_by_rule s) + list_sum (map (fun r => len0 (matches_of r)) l).
Proof.
  induction 1 as [s | s s1 s' r l He Hl IH]; intros Hnd Hnew; [cbn; lia |].
  apply entry_effect_setitem in He. destruct He as (h & Hh & _ & Hf).
  cbn [rule_keys map] in Hnd, Hnew. rewrite Hh in Hnd, Hnew.
  inversion Hnd as [| x l' Hnotin Hnd']; subst.
  pose proof (sum_counts_set (findings_by_rule s) h (rulename_of r)
                (len0 (matches_of r))) as Hs.
  rewrite (Hnew h (or_introl eq_refl)), <- Hf in Hs.
  rewrite IH; [unfold list_sum in *; cbn [map fold_right]; lia | exact Hnd' |].
  intros h' Hin. rewrite Hf, (kdict_find_set _ _ h' _ _ Hh).
  destruct (hkey_eq_dec h h') as [<- |]; [contradiction |].
  apply Hnew. now right.
Qed.

(** X11.  In a returned summary the counts of [findings_by_rule] add up to
    at most [total_findings], since a rule seen again overwrites its count
    while the total keeps both; they add up to exactly [total_findings] when
    no two object entries have the same rule name. *)
Theorem findings_by_rule_sum (R : Runtime) (fs : files) (p out : string)
    (t : list event) (s : summary) :
  reduce_results R fs p out = (t, inr s) ->
  exists es,
    combined_entries R fs p = inr es /\
    sum_counts (findings_by_rule s) <= total_findings s /\
    (NoDup (rule_keys (dicts es)) ->
     sum_counts (findings_by_rule s) = total_findings s).
Proof.
  intros H. apply reduce_results_inv in H. destruct H as (es & Hes & He).
  exists es. split; [exact Hes |].
  pose proof (entries_effect_total _ _ _ He) as [_ Ht].
  pose proof (entries_effect_sum_le _ _ _ He) as Hle.
  cbn [total_findings findings_by_rule empty_summary] in Ht, Hle.
  split; [unfold sum_counts in *; cbn in *; lia |].
  intros Hnd.
  rewrite (entries_effect_sum_eq _ _ _ He Hnd); [cbn; lia | reflexivity].
Qed.

Lemma findings_by_rule_sum_of_mixed_run :
  exists es,
    combined_entries Sample.runtime mixed_files Sample.path = inr es /\
    sum_counts (findings_by_rule Sample.mixed_summary)
      <= total_findings Sample.mixed_summary /\
    (NoDup (rule_keys (dicts es)) ->
     sum_counts (findings_by_rule Sample.mixed_summary)
       = total_findings Sample.mixed_summary).
Proof.
  apply (findings_by_rule_sum Sample.runtime mixed_files Sample.path Sample.out
           (fst (reduce_results Sample.runtime mixed_files Sample.path Sample.out))).
  vm_compute. reflexivity.
Defined.

(** In the four-element document the first rule occurs twice: the counts
    add up to less than the total. *)
Example mixed_run_counts_fall_short :
  sum_counts (findings_by_rule Sample.mixed_summary) = 0 /\
  total_findings Sample.mixed_summary = 1.
Proof. split; reflexivity. Qed.

(** ** The summary as a function of the entries *)

Lemma Forall2_functional {A B : Type} (rel : A -> B -> Prop) (l : list A) :
  (forall x y y', rel x y -> rel x y' -> y = y') ->
  forall l1 l2, Forall2 rel l l1 -> Forall2 rel l l2 -> l1 = l2.
Proof.
  intros Hf. induction l as [| x l IH]; intros l1 l2 H1 H2;
    inversion H1; inversion H2; subst; [reflexivity |].
  f_equal; [eapply Hf; eassumption | now apply IH].
Qed.

Lemma finding_of_functional (rn mt : json) (m m' : pydict) :
  finding_of rn mt m -> finding_of rn mt m' -> m = m'.
Proof.
  intros (d & ds & de & -> & Hs & He & ->) (d' & ds' & de' & Hd & Hs' & He' & ->).
  inversion Hd; subst d'. rewrite Hs in Hs'. rewrite He in He'.
  inversion Hs'; inversion He'; subst. reflexivity.
Qed.

Lemma vulnerability_of_functional (rn : json) (item : string * json) (m m' : pydict) :
  vulnerability_of rn item m -> vulnerability_of rn item m' -> m = m'.
Proof.
  intros (d & Hd & ->) (d' & Hd' & ->). rewrite Hd in Hd'. inversion Hd'; subst.
  reflexivity.
Qed.

Lemma entry_effect_functional (s s1 s2 : summary) (r : pydict) :
  entry_effect s r s1 -> entry_effect s r s2 -> s1 = s2.
Proof.
  intros H1 H2.
  destruct H1 as [n fbr vulns recs md Hp Hn Hf Hv HF Hmd | n fbr ms recs Hp Hn Hf Hi HF];
    destruct H2 as [n' fbr' vulns' recs' md' Hp' Hn' Hf' Hv' HF' Hmd'
                   | n' fbr' ms' recs' Hp' Hn' Hf' Hi' HF'];
    try congruence.
  - rewrite Hn in Hn'. inversion Hn'; subst n'.
    rewrite Hf in Hf'. inversion Hf'; subst fbr'.
    rewrite Hv in Hv'. inversion Hv'; subst vulns'.
    rewrite Hmd in Hmd'. inversion Hmd'; subst md'.
    rewrite (Forall2_functional _ _ (vulnerability_of_functional _) _ _ HF HF').
    reflexivity.
  - rewrite Hn in Hn'. inversion Hn'; subst n'.
    rewrite Hf in Hf'. inversion Hf'; subst fbr'.
    rewrite Hi in Hi'. inversion Hi'; subst ms'.
    rewrite (Forall2_functional _ _ (finding_of_functional _) _ _ HF HF').
    reflexivity.
Qed.

Lemma entries_effect_functional (s s1 s2 : summary) (l : list pydict) :
  entries_effect s l s1 -> entries_effect s l s2 -> s1 = s2.
Proof.
  intros H1. revert s2. induction H1 as [s | s sa s1 r l He Hl IH]; intros s2 H2;
    inversion H2; subst; [reflexivity |].
  match goal with
  | Hb : entry_effect s r ?sb |- _ =>
      rewrite <- (entry_effect_functional _ _ _ _ He Hb) in *
  end.
  now apply IH.
Qed.

(** X12.  The summary that a run returns depends on the decoded entries
    alone: two runs on the same entries return the same summary whatever the
    path and name of the input, the output directory, the clock and the
    formatting of the two environments. *)
Theorem summary_depends_on_entries_only (R1 R2 : Runtime) (fs1 fs2 : files)
    (p1 p2 out1 out2 : string) (es : list json) (t1 t2 : list event)
    (s1 s2 : summary) :
  combined_entries R1 fs1 p1 = inr es ->
  combined_entries R2 fs2 p2 = inr es ->
  reduce_results R1 fs1 p1 out1 = (t1, inr s1) ->
  reduce_results R2 fs2 p2 out2 = (t2, inr s2) ->
  s1 = s2.
Proof.
  intros He1 He2 H1 H2.
  apply reduce_results_inv in H1. destruct H1 as (es1 & He1' & Hl1).
  apply reduce_results_inv in H2. destruct H2 as (es2 & He2' & Hl2).
  rewrite He1 in He1'. rewrite He2 in He2'. inversion He1'; inversion He2'; subst.
  eapply entries_effect_functional; eassumption.
Qed.

Lemma same_summary_at_a_later_time :
  reduce_results Sample.runtime
    (Sample.file_with Sample.path ("[" ++ Sample.eqeq_text ++ "]"))
    Sample.path Sample.out
    = (fst (reduce_results Sample.runtime
              (Sample.file_with Sample.path ("[" ++ Sample.eqeq_text ++ "]"))
              Sample.path Sample.out),
       inr one_finding_summary) /\
  reduce_results Sample2.later_runtime
    (Sample.file_with "other_host.json" ("[" ++ Sample.eqeq_text ++ "]"))
    "other_host.json" "./elsewhere"
    = (fst (reduce_results Sample2.later_runtime
              (Sample.file_with "other_host.json" ("[" ++ Sample.eqeq_text ++ "]"))
              "other_host.json" "./elsewhere"),
       inr one_finding_summary) /\
  one_finding_summary = one_finding_summary.
Proof.
  assert (H1 : reduce_results Sample.runtime
                 (Sample.file_with Sample.path ("[" ++ Sample.eqeq_text ++ "]"))
                 Sample.path Sample.out
               = (fst (reduce_results Sample.runtime
                         (Sample.file_with Sample.path ("[" ++ Sample.eqeq_text ++ "]"))
                         Sample.path Sample.out),
                  inr one_finding_summary))
    by (vm_compute; reflexivity).
  assert (H2 : reduce_results Sample2.later_runtime
                 (Sample.file_with "other_host.json" ("[" ++ Sample.eqeq_text ++ "]"))
                 "other_host.json" "./elsewhere"
               = (fst (reduce_results Sample2.later_runtime
                         (Sample.file_with "other_host.json"
                            ("[" ++ Sample.eqeq_text ++ "]"))
                         "other_host.json" "./elsewhere"),
                  inr one_finding_summary))
    by (vm_compute; reflexivity).
  split; [exact H1 |]. split; [exact H2 |].
  exact (summary_depends_on_entries_only Sample.runtime Sample2.later_runtime
           (Sample.file_with Sample.path ("[" ++ Sample.eqeq_text ++ "]"))
           (Sample.file_with "other_host.json" ("[" ++ Sample.eqeq_text ++ "]"))
           Sample.path "other_host.json" Sample.out "./elsewhere"
           [Sample.eqeq_value] _ _ _ _ eq_refl eq_refl H1 H2).
Defined.

(** ** Documents put end to end *)

Lemma dicts_app (l1 l2 : list json) : dicts (l1 ++ l2) = (dicts l1 ++ dicts l2)%list.
Proof.
  induction l1 as [| x l1 IH]; [reflexivity |].
  destruct x; cbn [app dicts]; rewrite IH; reflexivity.
Qed.

Lemma entries_effect_app_inv (l1 l2 : list pydict) : forall s s',
  entries_effect s (l1 ++ l2) s' ->
  exists sm, entries_effect s l1 sm /\ entries_effect sm l2 s'.
Proof.
  induction l1 as [| r l1 IH]; intros s s' H.
  - exists s. split; [constructor | exact H].
  - inversion H as [| ? s1 ? ? ? He Hl]; subst.
    destruct (IH _ _ Hl) as (sm & H1 & H2).
    exists sm. split; [econstructor; eassumption | exact H2].
Qed.

Lemma entry_effect_frame (a a' b : summary) (r : pydict) :
  entry_effect a r a' ->
  exists b' recs,
    entry_effect b r b' /\
    all_matches a' = (all_matches a ++ recs)%list /\
    all_matches b' = (all_matches b ++ recs)%list.
Proof.
  intros H.
  assert (Hk : exists h, py_hash_key (rulename_of r) = Some h).
  { apply entry_effect_setitem in H. destruct H as (h & Hh & _). eauto. }
  destruct H as [n fbr vulns recs md Hp Hn Hf Hv HF Hmd | n fbr ms recs Hp Hn Hf Hi HF];
    destruct (kdict_setitem_str (findings_by_rule b) (rulename_of r) n Hk) as (fbr' & Hf').
  - exists (mk_summary (total_findings b + n) fbr' (all_matches b ++ recs)%list
              (Some (counts_record md))), recs.
    split; [| split; reflexivity].
    exact (effect_package b r n fbr' vulns recs md Hp Hn Hf' Hv HF Hmd).
  - exists (mk_summary (total_findings b + n) fbr' (all_matches b ++ recs)%list
              (vulnerability_summary b)), recs.
    split; [| split; reflexivity].
    exact (effect_regular b r n fbr' ms recs Hp Hn Hf' Hi HF).
Qed.

Lemma entries_effect_frame (a a' : summary) (l : list pydict) :
  entries_effect a l a' ->
  forall b, exists b' recs,
    entries_effect b l b' /\
    all_matches a' = (all_matches a ++ recs)%list /\
    all_matches b' = (all_matches b ++ recs)%list.
Proof.
  induction 1 as [a | a a1 a' r l He Hl IH]; intros b.
  - exists b, []. rewrite !app_nil_r. split; [constructor | auto].
  - destruct (entry_effect_frame a a1 b r He) as (b1 & g & Hb & Ha1 & Hb1).
    destruct (IH b1) as (b' & recs & Hl' & Ha' & Hb').
    exists b', (g ++ recs)%list. split; [econstructor; eassumption |].
    rewrite Ha', Hb', Ha1, Hb1, <- !app_assoc. auto.
Qed.

(** X13.  Reducing a document that holds the entries of one document
    followed by the entries of another gives the two summaries put together:
    the totals add up, the matches of the first are followed by the matches of
    the second, and for each rule and for the severity counts the second
    summary prevails where it has a value and the first stands elsewhere. *)
Theorem concatenated_documents (R : Runtime) (fs1 fs2 fs3 : files)
    (p1 p2 p3 out1 out2 out3 : string) (es1 es2 : list json)
    (t1 t2 t3 : list event) (s1 s2 s3 : summary) :
  combined_entries R fs1 p1 = inr es1 ->
  combined_entries R fs2 p2 = inr es2 ->
  combined_entries R fs3 p3 = inr (es1 ++ es2)%list ->
  reduce_results R fs1 p1 out1 = (t1, inr s1) ->
  reduce_results R fs2 p2 out2 = (t2, inr s2) ->
  reduce_results R fs3 p3 out3 = (t3, inr s3) ->
  total_findings s3 = total_findings s1 + total_findings s2 /\
  all_matches s3 = (all_matches s1 ++ all_matches s2)%list /\
  vulnerability_summary s3 =
    match vulnerability_summary s2 with
    | Some counts => Some counts
    | None => vulnerability_summary s1
    end /\
  forall k,
    kdict_lookup (findings_by_rule s3) k =
    match kdict_lookup (findings_by_rule s2) k with
    | Some n => Some n
    | None => kdict_lookup (findings_by_rule s1) k
    end.
Proof.
  intros He1 He2 He3 H1 H2 H3.
  apply reduce_results_inv in H1. destruct H1 as (x1 & Hx1 & E1).
  apply reduce_results_inv in H2. destruct H2 as (x2 & Hx2 & E2).
  apply reduce_results_inv in H3. destruct H3 as (x3 & Hx3 & E3).
  rewrite He1 in Hx1. rewrite He2 in Hx2. rewrite He3 in Hx3.
  injection Hx1 as <-. injection Hx2 as <-. injection Hx3 as <-.
  rewrite dicts_app in E3. apply entries_effect_app_inv in E3.
  destruct E3 as (sm & E3a & E3).
  rewrite (entries_effect_functional _ _ _ _ E3a E1) in E3. clear E3a sm.
  repeat split.
  - pose proof (entries_effect_total _ _ _ E2) as [_ T2].
    pose proof (entries_effect_total _ _ _ E3) as [_ T3].
    cbn [total_findings empty_summary] in T2. lia.
  - destruct (entries_effect_frame _ _ _ E2 s1) as (b' & recs & Hb & Ha & Hb').
    rewrite (entries_effect_functional _ _ _ _ E3 Hb), Hb', Ha. reflexivity.
  - pose proof (entries_effect_vulnerability_summary _ _ _ E2) as V2.
    pose proof (entries_effect_vulnerability_summary _ _ _ E3) as V3.
    destruct (last_with is_package_scan (dicts es2)).
    + destruct V2 as (md & Hmd & ->). destruct V3 as (md' & Hmd' & ->).
      congruence.
    + rewrite V2, V3. reflexivity.
  - intros k. unfold kdict_lookup. destruct (py_hash_key k) as [h |]; [| reflexivity].
    rewrite (entries_effect_findings _ _ _ h E2), (entries_effect_findings _ _ _ h E3).
    destruct (last_with _ (dicts es2)); reflexivity.
Qed.

Lemma finding_document_then_scan_document :
  total_findings finding_then_scan_summary
    = total_findings one_finding_summary + total_findings lodash_summary /\
  all_matches finding_then_scan_summary
    = (all_matches one_finding_summary ++ all_matches lodash_summary)%list /\
  vulnerability_summary finding_then_scan_summary =
    match vulnerability_summary lodash_summary with
    | Some counts => Some counts
    | None => vulnerability_summary one_finding_summary
    end /\
  forall k,
    kdict_lookup (findings_by_rule finding_then_scan_summary) k =
    match kdict_lookup (findings_by_rule lodash_summary) k with
    | Some n => Some n
    | None => kdict_lookup (findings_by_rule one_finding_summary) k
    end.
Proof.
  apply (concatenated_documents Sample2.runtime
           (Sample.file_with "a.json" ("[" ++ Sample.eqeq_text ++ "]"))
           (Sample.file_with "b.json" ("[" ++ Sample.lodash_text ++ "]"))
           (Sample.file_with "ab.json" Sample2.finding_then_scan_text)
           "a.json" "b.json" "ab.json" Sample.out Sample.out Sample.out
           [Sample.eqeq_value] [lodash_scan]
           (fst (reduce_results Sample2.runtime
                   (Sample.file_with "a.json" ("[" ++ Sample.eqeq_text ++ "]"))
                   "a.json" Sample.out))
           (fst (reduce_results Sample2.runtime
                   (Sample.file_with "b.json" ("[" ++ Sample.lodash_text ++ "]"))
                   "b.json" Sample.out))
           (fst (reduce_results Sample2.runtime
                   (Sample.file_with "ab.json" Sample2.finding_then_scan_text)
                   "ab.json" Sample.out)));
    vm_compute; reflexivity.
Defined.

(** ** Entries that are not objects *)

Lemma snd_bind_inr {A B : Type} (t : list event) (a : A) (k : A -> M B) :
  snd (bind (t, inr a) k) = snd (k a).
Proof. unfold bind. destruct (k a). reflexivity. Qed.

Lemma loop_ignores_non_objects (R : Runtime) (es : list json) : forall s,
  snd (for_each (process_result R) s es) =
  snd (for_each (process_result R) s (map JDict (dicts es))).
Proof.
  induction es as [| x es IH]; intros s; [reflexivity |].
  destruct (is_dict x) eqn:Hx.
  - destruct x; try discriminate. cbn [dicts map for_each].
    destruct (process_result R s (JDict d)) as [t [e | s1]]; [reflexivity |].
    rewrite !snd_bind_inr. apply IH.
  - cbn [for_each]. rewrite (process_result_non_dict R s x Hx), snd_bind_inr, IH.
    destruct x; try discriminate; reflexivity.
Qed.

Lemma unaccepted_run_raises (R : Runtime) (fs : files) (p out : string)
    (es : list json) :
  combined_entries R fs p = inr es ->
  os_mkdir R out = None ->
  (forall f, os_open_w R f = None) ->
  writable R ->
  forallb accepted (dicts es) = false ->
  exists t e,
    reduce_results R fs p out = (t, inl e) /\ type_or_attribute_error e.
Proof.
  intros Hes Hmk Hopen Hw Hacc.
  destruct (for_each (process_result R) empty_summary es) as [tl [e0 | s]] eqn:Hloop.
  - exists (start_line p :: tl), e0.
    split; [exact (run_of_failed_entries R fs p out es tl e0 Hes Hloop) |].
    pose proof (loop_raises_type_or_attribute_error R es empty_summary e0) as Hq.
    rewrite Hloop in Hq. exact (Hq eq_refl).
  - pose proof (loop_inv R es _ _ _ Hloop) as [_ He].
    destruct (write_report R (txt_path_of R p out) s) as [t_rep [e | []]] eqn:Hrep.
    + assert (Hb : Forall built_record (all_matches s))
        by (eapply entries_effect_built; [exact He | constructor]).
      assert (Hvac : forall f chunk text,
                 os_write R f chunk = Some text -> EnvError text = TypeError).
      { intros f chunk text Hsome. rewrite (Hw f chunk) in Hsome. discriminate. }
      pose proof (write_report_raises R (fun e => e = TypeError) eq_refl Hvac
                    (txt_path_of R p out) s Hb e) as Hr.
      rewrite Hrep in Hr. rewrite (Hr eq_refl) in Hrep.
      eexists. exists TypeError. split; [| left; reflexivity].
      eapply run_of_entries; [exact Hes | exact Hloop |].
      apply save_outputs_report_failed; eassumption.
    + pose proof (write_report_inr R _ s t_rep Hrep) as HR.
      rewrite (entries_effect_accepted R _ _ _ _ He HR) in Hacc. discriminate.
Qed.

(** C4, as the code has it.  The malformation that the loop tolerates is an
    element that is not an object: such an element is skipped with one
    warning and leaves the summary as it is, and the loop ends with the
    summary or the exception that the object elements alone give.  Let the
    output directory and files be such that they can be made and written.
    When every object element is accepted, the run returns a summary; its
    events are the start line, then one warning for each element that is not
    an object, in order, then the events of writing the output; and the
    summary is the one the object elements alone produce.  When some object
    element is not accepted, the run raises [TypeError] or
    [AttributeError]. *)
Theorem non_objects_are_skipped (R : Runtime) (fs : files) (p out : string)
    (es : list json) :
  combined_entries R fs p = inr es ->
  os_mkdir R out = None ->
  (forall f, os_open_w R f = None) ->
  writable R ->
  (forall s x, In x es -> is_dict x = false ->
               process_result R s x = ([skip_warning R x], inr s)) /\
  snd (for_each (process_result R) empty_summary es) =
    snd (for_each (process_result R) empty_summary (map JDict (dicts es))) /\
  (forallb accepted (dicts es) = true ->
   exists s t_out,
     reduce_results R fs p out =
       (start_line p :: map (skip_warning R) (non_dicts es) ++ t_out, inr s)%list /\
     save_outputs R (server_name_of p) (now_stamp R) out s = (t_out, inr s) /\
     for_each (process_result R) empty_summary (map JDict (dicts es)) = ([], inr s)) /\
  (forallb accepted (dicts es) = false ->
   exists t e,
     reduce_results R fs p out = (t, inl e) /\ (e = TypeError \/ e = AttributeError)).
Proof.
  intros Hes Hmk Hopen Hw.
  split; [intros s x _ Hx; now apply process_result_non_dict |].
  split; [apply loop_ignores_non_objects |].
  split.
  - intros Hacc.
    destruct (accepted_entries_effect (dicts es) empty_summary Hacc) as (s & He & HR);
      [constructor |].
    destruct (save_outputs_ok R (server_name_of p) (now_stamp R) out s Hmk Hopen Hw HR)
      as (t_out & Hsave).
    exists s, t_out. split; [| split].
    + eapply run_of_entries; [exact Hes | apply loop_ok; exact He | exact Hsave].
    + exact Hsave.
    + rewrite <- (dicts_of_dicts (dicts es)) in He.
      apply (loop_ok R) in He. now rewrite non_dicts_of_dicts in He.
  - intros Hacc.
    exact (unaccepted_run_raises R fs p out es Hes Hmk Hopen Hw Hacc).
Qed.

Lemma mixed_run_skips_the_number :
  (forall s x, In x (as_list Sample.mixed_value) -> is_dict x = false ->
               process_result Sample.runtime s x
               = ([skip_warning Sample.runtime x], inr s)) /\
  snd (for_each (process_result Sample.runtime) empty_summary
         (as_list Sample.mixed_value)) =
    snd (for_each (process_result Sample.runtime) empty_summary
           (map JDict (dicts (as_list Sample.mixed_value)))) /\
  exists s t_out,
    reduce_results Sample.runtime mixed_files Sample.path Sample.out =
      (start_line Sample.path :: [skip_warning Sample.runtime (JInt 7)] ++ t_out,
       inr s)%list /\
    save_outputs Sample.runtime (server_name_of Sample.path)
      (now_stamp Sample.runtime) Sample.out s = (t_out, inr s) /\
    for_each (process_result Sample.runtime) empty_summary
      (map JDict (dicts (as_list Sample.mixed_value))) = ([], inr s).
Proof.
  destruct (non_objects_are_skipped Sample.runtime mixed_files Sample.path Sample.out
              (as_list Sample.mixed_value) eq_refl eq_refl (fun _ => eq_refl)
              (fun _ _ => eq_refl)) as (Hskip & Hsame & Hret & _).
  exact (conj Hskip (conj Hsame (Hret eq_refl))).
Defined.

(** Entries that C4 as amended covers: an empty string or a non-empty
    object as [matches] of a package scan has a length and is accepted, and a
    number as [matches] is not. *)
Example accepted_entries :
  accepted [ ("rulename", JStr "r"); ("matches", JStr EmptyString) ] = true /\
  accepted [ ("rulename", JStr "package_scan");
             ("matches", JDict [ ("a", JInt 1); ("b", JInt 2) ]) ] = true /\
  accepted [ ("matches", JInt 5) ] = false.
Proof. repeat split; reflexivity. Qed.
